(** * BottomSheetModal: the presentation controller of the bottom sheet modal

    A shallow embedding of
    [src/components/bottomSheetModal/BottomSheetModal.tsx].

    The component keeps one piece of React state ([mount]) and five refs
    ([bottomSheetRef], [isMinimized], [isForcedDismissed], [currentIndexRef],
    [nextIndexRef]).  Its handlers mutate the refs, call the sheet engine
    through [bottomSheetRef.current?.method()], call the modal provider
    ([mountSheet], [unmountSheet], [willUnmountSheet]), the portal
    ([unmountPortal]) and the caller's callbacks.  Here the refs and the
    React state are the fields of a record, and every outward call is an
    entry of an effect trace, in program order.

    Indices are JavaScript numbers that hold integers; they are modelled
    as [Z].  The caller's callbacks are opaque: a call is recorded in the
    trace and does not re-enter the controller. *)

From Stdlib Require Import ZArith List String Bool Lia.
Import ListNotations.
Local Open Scope Z_scope.

(** ** Props *)

(** An entry of [snapPoints]: a number of points or a percentage string. *)
Inductive SnapPoint : Type :=
| SnapNumber (n : Z)
| SnapString (s : string).

(** The destructured props, defaults applied.  A callback prop is either
    provided or [undefined]; the handlers only test it and call it, so a
    boolean records whether it is there. *)
Record Props : Type := mkProps {
  name : option string;
  dismissOnPanDown : bool;
  providedOnDismiss : bool;
  providedIndex : Z;
  providedSnapPoints : list SnapPoint;
  providedOnChange : bool
}.

(** ** Effects *)

(** A method of the sheet engine, called through [bottomSheetRef.current]. *)
Inductive SheetCommand : Type :=
| SheetClose
| SheetExpand
| SheetSnapTo (i : Z) (animated : option bool).

(** Everything a handler does to the outside, in program order. *)
Inductive Effect : Type :=
| Sheet (c : SheetCommand)
| MountSheet (k : string)
| UnmountSheet (k : string)
| WillUnmountSheet (k : string)
| UnmountPortal (k : string)
| OnChange (i : Z)
| OnDismiss.

Definition isOnDismiss (e : Effect) : bool :=
  match e with OnDismiss => true | _ => false end.

Definition isOnChange (e : Effect) : bool :=
  match e with OnChange _ => true | _ => false end.

Definition isSheet (e : Effect) : bool :=
  match e with Sheet _ => true | _ => false end.

(** How many entries of a trace satisfy a test. *)
Definition count (f : Effect -> bool) (t : list Effect) : nat :=
  List.length (filter f t).

(** ** State *)

(** The closure handed to [requestAnimationFrame] by [handlePresent]: it
    captures [index] and [key] of the render that created it. *)
Record Frame : Type := mkFrame {
  frameIndex : Z;
  frameKey : string
}.

Record Modal : Type := mkModal {
  mount : bool;                 (* useState(false) *)
  bottomSheetRef : bool;        (* bottomSheetRef.current is not null *)
  isMinimized : bool;
  isForcedDismissed : bool;
  currentIndexRef : Z;
  nextIndexRef : Z;
  frames : list Frame           (* animation-frame callbacks not yet run *)
}.

(** The state of a component that was constructed and never presented. *)
Definition initial : Modal :=
  mkModal false false false false (-1) (-1) [].

Definition setMount (b : bool) (s : Modal) : Modal :=
  mkModal b (bottomSheetRef s) (isMinimized s) (isForcedDismissed s)
          (currentIndexRef s) (nextIndexRef s) (frames s).

Definition setBottomSheetRef (b : bool) (s : Modal) : Modal :=
  mkModal (mount s) b (isMinimized s) (isForcedDismissed s)
          (currentIndexRef s) (nextIndexRef s) (frames s).

Definition setIsMinimized (b : bool) (s : Modal) : Modal :=
  mkModal (mount s) (bottomSheetRef s) b (isForcedDismissed s)
          (currentIndexRef s) (nextIndexRef s) (frames s).

Definition setIsForcedDismissed (b : bool) (s : Modal) : Modal :=
  mkModal (mount s) (bottomSheetRef s) (isMinimized s) b
          (currentIndexRef s) (nextIndexRef s) (frames s).

Definition setCurrentIndexRef (i : Z) (s : Modal) : Modal :=
  mkModal (mount s) (bottomSheetRef s) (isMinimized s) (isForcedDismissed s)
          i (nextIndexRef s) (frames s).

Definition setNextIndexRef (i : Z) (s : Modal) : Modal :=
  mkModal (mount s) (bottomSheetRef s) (isMinimized s) (isForcedDismissed s)
          (currentIndexRef s) i (frames s).

Definition setFrames (l : list Frame) (s : Modal) : Modal :=
  mkModal (mount s) (bottomSheetRef s) (isMinimized s) (isForcedDismissed s)
          (currentIndexRef s) (nextIndexRef s) l.

(** ** The handler monad: state passing with an effect trace *)

Definition M (A : Type) : Type := Modal -> A * Modal * list Effect.

Definition ret {A : Type} (a : A) : M A := fun s => (a, s, []).

Definition bind {A B : Type} (m : M A) (k : A -> M B) : M B :=
  fun s =>
    let r1 := m s in
    let r2 := k (fst (fst r1)) (snd (fst r1)) in
    (fst (fst r2), snd (fst r2), snd r1 ++ snd r2).

Declare Scope handler_scope.
Delimit Scope handler_scope with handler.
Notation "x <- m ;; k" := (bind m (fun x => k))
  (at level 61, m at next level, right associativity) : handler_scope.
Notation "m ;; k" := (bind m (fun _ => k))
  (at level 61, right associativity) : handler_scope.
Local Open Scope handler_scope.

Definition read {A : Type} (f : Modal -> A) : M A := fun s => (f s, s, []).
Definition write (f : Modal -> Modal) : M unit := fun s => (tt, f s, []).
Definition emit (e : Effect) : M unit := fun s => (tt, s, [e]).
Definition skip : M unit := ret tt.

(** State and trace after a handler has run. *)
Definition stateOf {A : Type} (m : M A) (s : Modal) : Modal := snd (fst (m s)).
Definition traceOf {A : Type} (m : M A) (s : Modal) : list Effect := snd (m s).

(** [bottomSheetRef.current?.method(...)]: the call is made only when the
    ref holds a sheet. *)
Definition sheet (c : SheetCommand) : M unit :=
  attached <- read bottomSheetRef ;;
  if attached then emit (Sheet c) else skip.

(** A concrete configuration: the default [dismissOnPanDown], two snap
    points, both callbacks provided. *)
Definition sampleProps : Props :=
  mkProps None true true 0 [SnapNumber 300; SnapNumber 500] true.

(** The same without the synthetic snap point. *)
Definition plainProps : Props :=
  mkProps (Some "sheet"%string) false true 0 [SnapNumber 300; SnapNumber 500] true.

(** A presented, settled sheet: mounted, rendered, at raw index [i]. *)
Definition presentedAt (i : Z) : Modal :=
  mkModal true true false false i i [].

(** The same sheet after [minimize()]. *)
Definition minimizedAt (i : Z) : Modal :=
  mkModal true true true false i i [].

(** ** The surface of the component *)

(** What can happen to a mounted component: a method of the imperative
    handle ([useImperativeHandle]), the engine's [onChange], the portal's
    [handleOnUnmount], the animation frame that runs the pending
    callbacks, and a render that commits [mount]. *)
Inductive Event : Type :=
| Present
| Dismiss (force : bool)
| Close
| Collapse
| Expand
| SnapTo (i : Z)
| Minimize
| Restore
| EngineChange (i : Z)
| HostUnmount
| AnimationFrame
| Render.

(** [close], [collapse], [expand], [snapTo] and a plain [dismiss()]. *)
Definition isIntent (e : Event) : bool :=
  match e with
  | Close | Collapse | Expand | SnapTo _ | Dismiss false => true
  | _ => false
  end.

Definition isRender (e : Event) : bool :=
  match e with Render => true | _ => false end.

Definition isUnmountSheet (e : Effect) : bool :=
  match e with UnmountSheet _ => true | _ => false end.

Definition isUnmountPortal (e : Effect) : bool :=
  match e with UnmountPortal _ => true | _ => false end.

Definition isWillUnmountSheet (e : Effect) : bool :=
  match e with WillUnmountSheet _ => true | _ => false end.

(** An entry that is no part of a teardown and, when it is a change
    notification, carries an index that is not negative. *)
Definition quiet (e : Effect) : bool :=
  match e with
  | UnmountSheet _ | UnmountPortal _ | OnDismiss => false
  | OnChange i => 0 <=? i
  | _ => true
  end.

Section Controller.

Variable props : Props.
(** The value [nanoid()] returned when [key] was first computed. *)
Variable nanoid : string.

(** *** Variables of the render *)

(** [name || `bottom-sheet-modal-${nanoid()}`]: an absent or empty
    [name] is falsy. *)
Definition key : string :=
  match name props with
  | None | Some EmptyString => "bottom-sheet-modal-" ++ nanoid
  | Some n => n
  end%string.

Definition index : Z :=
  if dismissOnPanDown props then providedIndex props + 1
  else providedIndex props.

Definition snapPoints : list SnapPoint :=
  if dismissOnPanDown props then SnapNumber 0 :: providedSnapPoints props
  else providedSnapPoints props.

(** The local [adjustedIndex] of [handleOnChange]: the reported index
    in the caller's terms. *)
Definition adjustedIndex (_index : Z) : Z :=
  if dismissOnPanDown props then _index - 1 else _index.

(** *** Callbacks *)

Definition doDismiss : M unit :=
  write (setIsMinimized false) ;;
  write (setIsForcedDismissed false) ;;
  write (setCurrentIndexRef (-1)) ;;
  write (setNextIndexRef (-1)) ;;
  emit (UnmountSheet key) ;;
  emit (UnmountPortal key) ;;
  write (setMount false) ;;
  if providedOnDismiss props then emit OnDismiss else skip.

(** The part of [handleOnChange] after the two index assignments. *)
Definition reportOrDismiss (_index : Z) : M unit :=
  if 0 <=? adjustedIndex _index then
    if providedOnChange props then emit (OnChange (adjustedIndex _index))
    else skip
  else doDismiss.

Definition handleOnChange (_index : Z) : M unit :=
  minimized <- read isMinimized ;;
  forced <- read isForcedDismissed ;;
  if minimized && negb forced then skip
  else
    write (setCurrentIndexRef _index) ;;
    write (setNextIndexRef _index) ;;
    reportOrDismiss _index.

(** *** Public methods *)

(** The callback of [handlePresent], run at the next animation frame. *)
Definition runFrame (f : Frame) : M unit :=
  write (setNextIndexRef (frameIndex f)) ;;
  write (setMount true) ;;
  emit (MountSheet (frameKey f)).

Definition handlePresent : M unit :=
  pending <- read frames ;;
  write (setFrames (pending ++ [mkFrame index key])).

Definition handleDismiss (force : bool) : M unit :=
  let closing : M unit :=
    write (setNextIndexRef (-1)) ;;
    sheet SheetClose in
  if force then
    minimized <- read isMinimized ;;
    if minimized then doDismiss
    else
      write (setIsForcedDismissed true) ;;
      write (setIsMinimized false) ;;
      closing
  else
    emit (WillUnmountSheet key) ;;
    closing.

Definition handleClose : M unit :=
  minimized <- read isMinimized ;;
  if minimized then skip
  else
    write (setNextIndexRef (-1)) ;;
    sheet SheetClose.

Definition handleCollapse : M unit :=
  minimized <- read isMinimized ;;
  if minimized then skip
  else
    write (setNextIndexRef (if dismissOnPanDown props then 1 else 0)) ;;
    next <- read nextIndexRef ;;
    sheet (SheetSnapTo next None).

Definition handleExpand : M unit :=
  minimized <- read isMinimized ;;
  if minimized then skip
  else
    write (setNextIndexRef (Z.of_nat (List.length snapPoints) - 1)) ;;
    sheet SheetExpand.

Definition handleSnapTo (_index : Z) : M unit :=
  minimized <- read isMinimized ;;
  if minimized then skip
  else
    write (setNextIndexRef (_index + (if dismissOnPanDown props then 1 else 0))) ;;
    next <- read nextIndexRef ;;
    sheet (SheetSnapTo next None).

(** *** Private methods *)

Definition handleMinimize : M unit :=
  minimized <- read isMinimized ;;
  if negb minimized then
    write (setIsMinimized true) ;;
    sheet SheetClose
  else skip.

Definition handleRestore : M unit :=
  minimized <- read isMinimized ;;
  if minimized then
    write (setIsMinimized false) ;;
    next <- read nextIndexRef ;;
    sheet (SheetSnapTo next (Some true))
  else skip.

Definition handleOnUnmount : M unit :=
  current <- read currentIndexRef ;;
  if negb (current =? -1) then handleDismiss true else skip.

(** *** The environment's moves *)

(** The next animation frame runs every callback that is pending. *)
Fixpoint runFrames (l : list Frame) : M unit :=
  match l with
  | [] => skip
  | f :: l' => runFrame f ;; runFrames l'
  end.

Definition animationFrame : M unit :=
  pending <- read frames ;;
  write (setFrames []) ;;
  runFrames pending.

(** The render: [mount ? <Portal><BottomSheet ref={bottomSheetRef} ... /></Portal> : null].
    Committing it attaches the ref when the sheet is rendered and
    clears it otherwise. *)
Definition render : M unit :=
  mounted <- read mount ;;
  write (setBottomSheetRef mounted).

(** The engine reports a run of index changes. *)
Fixpoint reports (l : list Z) : M unit :=
  match l with
  | [] => skip
  | i :: l' => handleOnChange i ;; reports l'
  end.

(** The state [doDismiss] leaves: flags and indices reset, unmounted. *)
Definition tornDown (s : Modal) : Modal :=
  mkModal false (bottomSheetRef s) false false (-1) (-1) (frames s).

(** The trace of [doDismiss]. *)
Definition teardownTrace : list Effect :=
  [UnmountSheet key; UnmountPortal key]
    ++ (if providedOnDismiss props then [OnDismiss] else []).

(** *** Dispatch *)

Definition handle (e : Event) : M unit :=
  match e with
  | Present => handlePresent
  | Dismiss force => handleDismiss force
  | Close => handleClose
  | Collapse => handleCollapse
  | Expand => handleExpand
  | SnapTo i => handleSnapTo i
  | Minimize => handleMinimize
  | Restore => handleRestore
  | EngineChange i => handleOnChange i
  | HostUnmount => handleOnUnmount
  | AnimationFrame => animationFrame
  | Render => render
  end.

Fixpoint handleAll (l : list Event) : M unit :=
  match l with
  | [] => skip
  | e :: l' => handle e ;; handleAll l'
  end.

(** [n] calls of [present()] in a row. *)
Fixpoint presents (n : nat) : M unit :=
  match n with
  | O => skip
  | S n' => handlePresent ;; presents n'
  end.

(** * Properties *)

(** Unfolds a handler down to the state record and the trace. *)
Ltac unfold_handlers :=
  unfold stateOf, traceOf,
    handleOnUnmount, handleRestore, handleMinimize, handleSnapTo,
    handleExpand, handleCollapse, handleClose, handleDismiss,
    animationFrame, render, handlePresent, handleOnChange, reportOrDismiss,
    doDismiss, runFrame, sheet, skip, emit, write, read, bind, ret.

(** Runs a handler on a state whose flags are known from the context. *)
Ltac run s :=
  destruct s as [mt ref mn fd ci ni fr]; cbn in *; subst;
  unfold_handlers; cbn.

(** ** The monad *)

Lemma read_bind (A B : Type) (f : Modal -> A) (k : A -> M B) (s : Modal) :
  bind (read f) k s = k (f s) s.
Proof.
  unfold bind, read; cbn. destruct (k (f s) s) as [[b s'] t]. reflexivity.
Qed.

(** ** [doDismiss] *)

Lemma doDismiss_run (s : Modal) :
  doDismiss s = (tt, tornDown s, teardownTrace).
Proof.
  unfold teardownTrace, tornDown. run s.
  destruct (providedOnDismiss props); reflexivity.
Qed.

Lemma teardownTrace_dismissals :
  count isOnDismiss teardownTrace
  = (if providedOnDismiss props then 1 else 0)%nat.
Proof. unfold teardownTrace. destruct (providedOnDismiss props); reflexivity. Qed.

Lemma teardownTrace_quiet :
  count isOnChange teardownTrace = 0%nat /\ count isSheet teardownTrace = 0%nat.
Proof. unfold teardownTrace. destruct (providedOnDismiss props); split; reflexivity. Qed.

(** ** Engine change reports *)

(** A report is dropped when the sheet is minimized and no forced
    dismissal is in flight. *)
Lemma handleOnChange_guarded (s : Modal) (_index : Z) :
  isMinimized s = true -> isForcedDismissed s = false ->
  handleOnChange _index s = (tt, s, []).
Proof. intros Hm Hf. run s. reflexivity. Qed.

(** Otherwise both index refs take the reported index, and only then the
    callback or the teardown runs. *)
Lemma handleOnChange_passed (s : Modal) (_index : Z) :
  isMinimized s && negb (isForcedDismissed s) = false ->
  handleOnChange _index s
  = reportOrDismiss _index (setNextIndexRef _index (setCurrentIndexRef _index s)).
Proof.
  intros Hg. destruct s as [mt ref mn fd ci ni fr]; cbn in Hg.
  unfold handleOnChange, bind, read, write; cbn. rewrite Hg; cbn.
  destruct (reportOrDismiss _index _) as [[[] s'] t]. reflexivity.
Qed.

Lemma reportOrDismiss_closed (s : Modal) (_index : Z) :
  adjustedIndex _index < 0 ->
  reportOrDismiss _index s = (tt, tornDown s, teardownTrace).
Proof.
  intros Hneg. unfold reportOrDismiss.
  destruct (Z.leb_spec 0 (adjustedIndex _index)); [lia|].
  apply doDismiss_run.
Qed.

Lemma reportOrDismiss_open (s : Modal) (_index : Z) :
  0 <= adjustedIndex _index ->
  reportOrDismiss _index s
  = (tt, s, if providedOnChange props
            then [OnChange (adjustedIndex _index)] else []).
Proof.
  intros Hpos. unfold reportOrDismiss.
  destruct (Z.leb_spec 0 (adjustedIndex _index)); [|lia].
  destruct (providedOnChange props); reflexivity.
Qed.

Lemma reports_guarded (l : list Z) (s : Modal) :
  isMinimized s = true -> isForcedDismissed s = false ->
  reports l s = (tt, s, []).
Proof.
  intros Hm Hf. induction l as [|i l IH]; [reflexivity|].
  cbn [reports]. unfold bind.
  rewrite (handleOnChange_guarded s i Hm Hf); cbn. rewrite IH. reflexivity.
Qed.

(** ** Visual commands *)

Lemma handleClose_run (s : Modal) :
  isMinimized s = false ->
  handleClose s
  = (tt, setNextIndexRef (-1) s,
     if bottomSheetRef s then [Sheet SheetClose] else []).
Proof. intros Hm. run s. destruct ref; reflexivity. Qed.

Lemma handleCollapse_run (s : Modal) :
  isMinimized s = false ->
  handleCollapse s
  = (tt, setNextIndexRef (if dismissOnPanDown props then 1 else 0) s,
     if bottomSheetRef s
     then [Sheet (SheetSnapTo (if dismissOnPanDown props then 1 else 0) None)]
     else []).
Proof. intros Hm. run s. destruct ref; reflexivity. Qed.

Lemma handleExpand_run (s : Modal) :
  isMinimized s = false ->
  handleExpand s
  = (tt, setNextIndexRef (Z.of_nat (List.length snapPoints) - 1) s,
     if bottomSheetRef s then [Sheet SheetExpand] else []).
Proof. intros Hm. run s. destruct ref; reflexivity. Qed.

Lemma handleSnapTo_run (s : Modal) (_index : Z) :
  isMinimized s = false ->
  handleSnapTo _index s
  = (tt,
     setNextIndexRef (_index + (if dismissOnPanDown props then 1 else 0)) s,
     if bottomSheetRef s
     then [Sheet (SheetSnapTo
                    (_index + (if dismissOnPanDown props then 1 else 0)) None)]
     else []).
Proof. intros Hm. run s. destruct ref; reflexivity. Qed.

Lemma snapPoints_length :
  List.length snapPoints
  = (List.length (providedSnapPoints props)
     + (if dismissOnPanDown props then 1 else 0))%nat.
Proof. unfold snapPoints. destruct (dismissOnPanDown props); cbn; lia. Qed.

(** ** Dismissal *)

Lemma handleDismiss_forced_minimized (s : Modal) :
  isMinimized s = true ->
  handleDismiss true s = (tt, tornDown s, teardownTrace).
Proof.
  intros Hm. unfold handleDismiss. rewrite read_bind, Hm. apply doDismiss_run.
Qed.

Lemma handleDismiss_forced (s : Modal) :
  isMinimized s = false ->
  handleDismiss true s
  = (tt,
     mkModal (mount s) (bottomSheetRef s) false true
             (currentIndexRef s) (-1) (frames s),
     if bottomSheetRef s then [Sheet SheetClose] else []).
Proof. intros Hm. run s. destruct ref; reflexivity. Qed.

Lemma handleDismiss_unforced (s : Modal) :
  handleDismiss false s
  = (tt, setNextIndexRef (-1) s,
     WillUnmountSheet key
       :: (if bottomSheetRef s then [Sheet SheetClose] else [])).
Proof. run s. destruct ref; reflexivity. Qed.

(** ** Minimize and restore *)

Lemma handleMinimize_run (s : Modal) :
  isMinimized s = false ->
  handleMinimize s
  = (tt, setIsMinimized true s,
     if bottomSheetRef s then [Sheet SheetClose] else []).
Proof. intros Hm. run s. destruct ref; reflexivity. Qed.

Lemma handleRestore_run (s : Modal) :
  isMinimized s = true ->
  handleRestore s
  = (tt, setIsMinimized false s,
     if bottomSheetRef s
     then [Sheet (SheetSnapTo (nextIndexRef s) (Some true))] else []).
Proof. intros Hm. run s. destruct ref; reflexivity. Qed.

(** ** Presentation *)

Lemma handlePresent_run (s : Modal) :
  handlePresent s = (tt, setFrames (frames s ++ [mkFrame index key]) s, []).
Proof. run s. reflexivity. Qed.

(** * The claims *)

(** C5.  With [dismissOnPanDown] the adjusted index is the caller's index
    plus one and the adjusted snap points are the caller's with a leading
    [0]; without it both pass through unchanged.  Un-adjusting an adjusted
    index gives the caller's index back, for the initial index and for the
    index [snapTo] computes, and the adjusted sequence is longer than the
    caller's by one exactly when [dismissOnPanDown] is set. *)
Theorem adjustment_roundtrip :
  index = providedIndex props + (if dismissOnPanDown props then 1 else 0) /\
  snapPoints
  = (if dismissOnPanDown props then [SnapNumber 0] else [])
      ++ providedSnapPoints props /\
  adjustedIndex index = providedIndex props /\
  (forall i : Z,
      adjustedIndex (i + (if dismissOnPanDown props then 1 else 0)) = i) /\
  List.length snapPoints
  = (List.length (providedSnapPoints props)
     + (if dismissOnPanDown props then 1 else 0))%nat.
Proof.
  split; [|split; [|split; [|split]]].
  - unfold index. destruct (dismissOnPanDown props); lia.
  - unfold snapPoints. destruct (dismissOnPanDown props); reflexivity.
  - unfold adjustedIndex, index. destruct (dismissOnPanDown props); lia.
  - intros i. unfold adjustedIndex. destruct (dismissOnPanDown props); lia.
  - apply snapPoints_length.
Qed.

(** C3.  While the sheet is minimized and no forced dismissal is in
    flight, an engine change report changes no field of the state and
    calls nothing; so no run of reports delivered in that state reaches
    the caller's [onChange] or [onDismiss]. *)
Theorem minimized_reports_ignored (s : Modal) :
  isMinimized s = true -> isForcedDismissed s = false ->
  (forall _index : Z,
      stateOf (handleOnChange _index) s = s /\
      traceOf (handleOnChange _index) s = []) /\
  (forall l : list Z,
      stateOf (reports l) s = s /\
      traceOf (reports l) s = [] /\
      count isOnChange (traceOf (reports l) s) = 0%nat /\
      count isOnDismiss (traceOf (reports l) s) = 0%nat).
Proof.
  intros Hm Hf. split.
  - intros i. unfold stateOf, traceOf.
    rewrite (handleOnChange_guarded s i Hm Hf). split; reflexivity.
  - intros l. unfold stateOf, traceOf.
    rewrite (reports_guarded l s Hm Hf). repeat split; reflexivity.
Qed.

(** C4.  A report that passes the minimized guard and whose un-adjusted
    index is negative runs one teardown: flags and indices are reset, the
    sheet and the portal are unmounted under the key, [mount] is cleared,
    and the caller's [onDismiss], when provided, is called once; nothing
    in this depends on an earlier [dismiss].  When the un-adjusted index
    is not negative, the caller's [onChange], when provided, is called
    with it, both index refs hold the raw index, and there is no
    teardown. *)
Theorem report_reconciliation (s : Modal) (_index : Z) :
  isMinimized s && negb (isForcedDismissed s) = false ->
  (adjustedIndex _index < 0 ->
   stateOf (handleOnChange _index) s
   = mkModal false (bottomSheetRef s) false false (-1) (-1) (frames s) /\
   traceOf (handleOnChange _index) s
   = [UnmountSheet key; UnmountPortal key]
       ++ (if providedOnDismiss props then [OnDismiss] else []) /\
   count isOnDismiss (traceOf (handleOnChange _index) s)
   = (if providedOnDismiss props then 1 else 0)%nat /\
   count isOnChange (traceOf (handleOnChange _index) s) = 0%nat) /\
  (0 <= adjustedIndex _index ->
   stateOf (handleOnChange _index) s
   = mkModal (mount s) (bottomSheetRef s) (isMinimized s)
             (isForcedDismissed s) _index _index (frames s) /\
   traceOf (handleOnChange _index) s
   = (if providedOnChange props
      then [OnChange (adjustedIndex _index)] else []) /\
   count isOnDismiss (traceOf (handleOnChange _index) s) = 0%nat).
Proof.
  intros Hg. unfold stateOf, traceOf.
  rewrite (handleOnChange_passed s _index Hg). split; intros Hi.
  - rewrite (reportOrDismiss_closed _ _index Hi).
    cbn [fst snd]. repeat split.
    + apply teardownTrace_dismissals.
    + apply teardownTrace_quiet.
  - rewrite (reportOrDismiss_open _ _index Hi).
    cbn [fst snd]. repeat split.
    destruct (providedOnChange props); reflexivity.
Qed.

(** C9.  After a report that passes the minimized guard the two index
    refs are equal.  Both are assigned the raw reported index first: the
    callback or the teardown runs from a state in which both hold it. *)
Theorem report_aligns_indices (s : Modal) (_index : Z) :
  isMinimized s && negb (isForcedDismissed s) = false ->
  currentIndexRef (stateOf (handleOnChange _index) s)
  = nextIndexRef (stateOf (handleOnChange _index) s) /\
  (exists assigned : Modal,
      handleOnChange _index s = reportOrDismiss _index assigned /\
      currentIndexRef assigned = _index /\
      nextIndexRef assigned = _index /\
      assigned
      = mkModal (mount s) (bottomSheetRef s) (isMinimized s)
                (isForcedDismissed s) _index _index (frames s)).
Proof.
  intros Hg. split.
  - unfold stateOf. rewrite (handleOnChange_passed s _index Hg).
    destruct (Z.lt_ge_cases (adjustedIndex _index) 0) as [Hi|Hi].
    + rewrite (reportOrDismiss_closed _ _index Hi). reflexivity.
    + rewrite (reportOrDismiss_open _ _index Hi). reflexivity.
  - eexists. split; [apply (handleOnChange_passed s _index Hg)|].
    repeat split.
Qed.

(** C2.  [dismiss(force)], in every state.  Forced while minimized: the
    teardown runs at once and no engine command is issued.  Forced while
    not minimized: [isForcedDismissed] is set, [isMinimized] is cleared.
    In every case but the first, [nextIndexRef] becomes [-1] and the
    engine's [close()] is called when a sheet is rendered; with a ref
    that is [null] no command is issued.  The call itself tears nothing
    down.  The teardown is left to a closing report, which runs it when
    it passes the guard: after a forced dismissal always, after a plain
    one unless the sheet is minimized with no forced dismissal in
    flight; in that case every report is dropped. *)
Theorem dismiss_state_machine (s : Modal) :
  let closes := if bottomSheetRef s then [Sheet SheetClose] else [] in
  (isMinimized s = true ->
   stateOf (handleDismiss true) s
   = mkModal false (bottomSheetRef s) false false (-1) (-1) (frames s) /\
   traceOf (handleDismiss true) s
   = [UnmountSheet key; UnmountPortal key]
       ++ (if providedOnDismiss props then [OnDismiss] else []) /\
   count isSheet (traceOf (handleDismiss true) s) = 0%nat) /\
  (isMinimized s = false ->
   stateOf (handleDismiss true) s
   = mkModal (mount s) (bottomSheetRef s) false true
             (currentIndexRef s) (-1) (frames s) /\
   traceOf (handleDismiss true) s = closes) /\
  (stateOf (handleDismiss false) s
   = mkModal (mount s) (bottomSheetRef s) (isMinimized s)
             (isForcedDismissed s) (currentIndexRef s) (-1) (frames s) /\
   traceOf (handleDismiss false) s = WillUnmountSheet key :: closes) /\
  (forall force : bool,
      force && isMinimized s = false ->
      let closing := stateOf (handleDismiss force) s in
      nextIndexRef closing = -1 /\
      mount closing = mount s /\
      count isOnDismiss (traceOf (handleDismiss force) s) = 0%nat /\
      count isSheet (traceOf (handleDismiss force) s)
      = (if bottomSheetRef s then 1 else 0)%nat /\
      (forall _index : Z,
          force = true \/ isMinimized s = false \/ isForcedDismissed s = true ->
          adjustedIndex _index < 0 ->
          stateOf (handleOnChange _index) closing
          = mkModal false (bottomSheetRef s) false false (-1) (-1) (frames s) /\
          traceOf (handleOnChange _index) closing
          = [UnmountSheet key; UnmountPortal key]
              ++ (if providedOnDismiss props then [OnDismiss] else [])) /\
      (forall _index : Z,
          force = false -> isMinimized s = true -> isForcedDismissed s = false ->
          stateOf (handleOnChange _index) closing = closing /\
          traceOf (handleOnChange _index) closing = [])).
Proof.
  intros closes. subst closes. split; [|split; [|split]].
  - intros Hm. unfold stateOf, traceOf.
    rewrite (handleDismiss_forced_minimized s Hm). cbn [fst snd].
    repeat split. apply teardownTrace_quiet.
  - intros Hm. unfold stateOf, traceOf.
    rewrite (handleDismiss_forced s Hm). split; reflexivity.
  - unfold stateOf, traceOf.
    rewrite (handleDismiss_unforced s). split; reflexivity.
  - intros force Hrow closing. subst closing.
    assert (Hlater : forall c : Modal,
               bottomSheetRef c = bottomSheetRef s -> frames c = frames s ->
               isMinimized c && negb (isForcedDismissed c) = false ->
               forall _index : Z,
                 adjustedIndex _index < 0 ->
                 stateOf (handleOnChange _index) c
                 = mkModal false (bottomSheetRef s) false false (-1) (-1)
                           (frames s) /\
                 traceOf (handleOnChange _index) c
                 = [UnmountSheet key; UnmountPortal key]
                     ++ (if providedOnDismiss props then [OnDismiss] else [])).
    { intros c Hr Hfr Hg i Hi. unfold stateOf, traceOf.
      rewrite (handleOnChange_passed c i Hg), (reportOrDismiss_closed _ i Hi).
      cbn [fst snd]. unfold tornDown; cbn. rewrite Hr, Hfr. split; reflexivity. }
    destruct force; cbn in Hrow.
    + unfold stateOf, traceOf. rewrite (handleDismiss_forced s Hrow).
      cbn [fst snd].
      split; [reflexivity|]. split; [reflexivity|].
      split; [destruct (bottomSheetRef s); reflexivity|].
      split; [destruct (bottomSheetRef s); reflexivity|].
      split; [|intros i Hforce; discriminate Hforce].
      intros i _ Hi. apply Hlater; trivial.
    + unfold stateOf, traceOf. rewrite (handleDismiss_unforced s).
      cbn [fst snd].
      split; [reflexivity|]. split; [reflexivity|].
      split; [destruct (bottomSheetRef s); reflexivity|].
      split; [destruct (bottomSheetRef s); reflexivity|].
      split.
      * intros i Hpass Hi. apply Hlater; trivial. cbn.
        destruct Hpass as [H|[H|H]]; [discriminate H| |]; rewrite H;
          [reflexivity|apply andb_false_r].
      * intros i _ Hm Hf.
        rewrite (handleOnChange_guarded (setNextIndexRef (-1) s) i Hm Hf).
        split; reflexivity.
Qed.

(** C6.  On a sheet that is not minimized: [close()] sets [nextIndexRef]
    to [-1] and calls the engine's [close()]; [collapse()] sets it to [1]
    with [dismissOnPanDown] and to [0] without, and calls the engine's
    [snapTo] with that value; [expand()] sets it to the last index of the
    adjusted snap points and calls the engine's [expand()]; [snapTo(i)]
    sets it to the adjusted [i] and calls the engine's [snapTo] with that
    value.  The engine is called when a sheet is rendered; with a ref
    that is [null] the ref is written all the same and no command is
    issued.  No other field changes. *)
Theorem visual_commands (s : Modal) (_index : Z) :
  isMinimized s = false ->
  let first := if dismissOnPanDown props then 1 else 0 in
  let last := Z.of_nat (List.length snapPoints) - 1 in
  let adjusted := if dismissOnPanDown props then _index + 1 else _index in
  let issued := fun c : SheetCommand =>
                  if bottomSheetRef s then [Sheet c] else [] in
  handleClose s = (tt, setNextIndexRef (-1) s, issued SheetClose) /\
  handleCollapse s
  = (tt, setNextIndexRef first s, issued (SheetSnapTo first None)) /\
  handleExpand s = (tt, setNextIndexRef last s, issued SheetExpand) /\
  last
  = Z.of_nat (List.length (providedSnapPoints props))
    + (if dismissOnPanDown props then 1 else 0) - 1 /\
  handleSnapTo _index s
  = (tt, setNextIndexRef adjusted s, issued (SheetSnapTo adjusted None)).
Proof.
  intros Hm first last adjusted issued. subst first last adjusted issued.
  rewrite (handleClose_run s Hm), (handleCollapse_run s Hm),
    (handleExpand_run s Hm), (handleSnapTo_run s _index Hm).
  cbv beta. repeat split.
  - rewrite snapPoints_length. destruct (dismissOnPanDown props); lia.
  - destruct (dismissOnPanDown props); [reflexivity|].
    now rewrite Z.add_0_r.
Qed.

(** C7.  [minimize()] when not minimized sets [isMinimized] and keeps
    [currentIndexRef], [nextIndexRef] and [isForcedDismissed];
    [restore()] when minimized clears the flag.  When a sheet is rendered
    the first calls the engine's [close()] and the second its
    [snapTo(nextIndexRef, true)]; with a ref that is [null] neither
    issues a command.  A [minimize()] directly followed by a
    [restore()] ends in the state it started from, snaps back to the
    kept [nextIndexRef] and never calls [onDismiss].  With engine
    reports in between the same holds while no forced dismissal is in
    flight; with one in flight a closing report in between passes the
    guard, runs the teardown, and the [restore()] then does nothing.
    [minimize()] when minimized and [restore()] when not minimized do
    nothing. *)
Theorem minimize_restore (s : Modal) :
  let closes := if bottomSheetRef s then [Sheet SheetClose] else [] in
  let snaps := if bottomSheetRef s
               then [Sheet (SheetSnapTo (nextIndexRef s) (Some true))]
               else [] in
  (isMinimized s = false ->
   handleMinimize s
   = (tt,
      mkModal (mount s) (bottomSheetRef s) true (isForcedDismissed s)
              (currentIndexRef s) (nextIndexRef s) (frames s),
      closes)) /\
  (isMinimized s = true ->
   handleRestore s
   = (tt,
      mkModal (mount s) (bottomSheetRef s) false (isForcedDismissed s)
              (currentIndexRef s) (nextIndexRef s) (frames s),
      snaps)) /\
  (isMinimized s = false ->
   stateOf (handleMinimize ;; handleRestore) s = s /\
   traceOf (handleMinimize ;; handleRestore) s = closes ++ snaps /\
   count isOnDismiss (traceOf (handleMinimize ;; handleRestore) s) = 0%nat) /\
  (isMinimized s = false -> isForcedDismissed s = false ->
   forall l : list Z,
     stateOf (handleMinimize ;; reports l ;; handleRestore) s = s /\
     traceOf (handleMinimize ;; reports l ;; handleRestore) s
     = closes ++ snaps /\
     count isOnDismiss
       (traceOf (handleMinimize ;; reports l ;; handleRestore) s) = 0%nat) /\
  (isMinimized s = false -> isForcedDismissed s = true ->
   forall _index : Z,
     adjustedIndex _index < 0 ->
     stateOf (handleMinimize ;; handleOnChange _index ;; handleRestore) s
     = mkModal false (bottomSheetRef s) false false (-1) (-1) (frames s) /\
     traceOf (handleMinimize ;; handleOnChange _index ;; handleRestore) s
     = closes ++ [UnmountSheet key; UnmountPortal key]
         ++ (if providedOnDismiss props then [OnDismiss] else [])) /\
  (isMinimized s = true -> handleMinimize s = (tt, s, [])) /\
  (isMinimized s = false -> handleRestore s = (tt, s, [])).
Proof.
  intros closes snaps. subst closes snaps.
  assert (Hback : isMinimized s = false ->
                  setIsMinimized false (setIsMinimized true s) = s).
  { intros Hm. destruct s; cbn in *; subst; reflexivity. }
  assert (Hquiet : count isOnDismiss
                     ((if bottomSheetRef s then [Sheet SheetClose] else [])
                        ++ (if bottomSheetRef s
                            then [Sheet (SheetSnapTo (nextIndexRef s) (Some true))]
                            else [])) = 0%nat).
  { destruct (bottomSheetRef s); reflexivity. }
  split; [|split; [|split; [|split; [|split; [|split]]]]].
  - intros Hm. rewrite (handleMinimize_run s Hm). reflexivity.
  - intros Hm. rewrite (handleRestore_run s Hm). reflexivity.
  - intros Hm. unfold stateOf, traceOf, bind.
    rewrite (handleMinimize_run s Hm). cbn [fst snd].
    rewrite (handleRestore_run (setIsMinimized true s) eq_refl).
    cbn [fst snd]. rewrite (Hback Hm).
    change (bottomSheetRef (setIsMinimized true s)) with (bottomSheetRef s).
    change (nextIndexRef (setIsMinimized true s)) with (nextIndexRef s).
    split; [reflexivity|]. split; [reflexivity|exact Hquiet].
  - intros Hm Hf l. unfold stateOf, traceOf, bind.
    rewrite (handleMinimize_run s Hm). cbn [fst snd].
    rewrite (reports_guarded l (setIsMinimized true s) eq_refl Hf).
    cbn [fst snd].
    rewrite (handleRestore_run (setIsMinimized true s) eq_refl).
    cbn [fst snd]. rewrite (Hback Hm).
    change (bottomSheetRef (setIsMinimized true s)) with (bottomSheetRef s).
    change (nextIndexRef (setIsMinimized true s)) with (nextIndexRef s).
    split; [reflexivity|]. split; [reflexivity|exact Hquiet].
  - intros Hm Hf i Hi. unfold stateOf, traceOf, bind.
    rewrite (handleMinimize_run s Hm). cbn [fst snd].
    assert (Hg : isMinimized (setIsMinimized true s)
                 && negb (isForcedDismissed (setIsMinimized true s)) = false).
    { cbn. now rewrite Hf. }
    rewrite (handleOnChange_passed (setIsMinimized true s) i Hg),
      (reportOrDismiss_closed _ i Hi).
    cbn [fst snd].
    assert (Hnoop : handleRestore
                      (tornDown (setNextIndexRef i
                                   (setCurrentIndexRef i (setIsMinimized true s))))
                    = (tt,
                       mkModal false (bottomSheetRef s) false false (-1) (-1)
                               (frames s), [])) by reflexivity.
    rewrite Hnoop. cbn [fst snd]. rewrite app_nil_r. split; reflexivity.
  - intros Hm. run s. reflexivity.
  - intros Hm. run s. reflexivity.
Qed.

(** C8.  While the sheet is minimized, [close()], [collapse()],
    [expand()] and [snapTo(i)] return without touching any field of the
    state and without any call to the engine, the host or the caller. *)
Theorem visual_commands_minimized (s : Modal) (_index : Z) :
  isMinimized s = true ->
  handleClose s = (tt, s, []) /\
  handleCollapse s = (tt, s, []) /\
  handleExpand s = (tt, s, []) /\
  handleSnapTo _index s = (tt, s, []).
Proof. intros Hm. run s. repeat split. Qed.

(** C10.  [snapTo(i)] checks no range: for every integer [i], on a sheet
    that is not minimized, it returns and sets [nextIndexRef] to [i] plus
    one with [dismissOnPanDown] and to [i] without.  When a sheet is
    rendered it hands that value to the engine's [snapTo]; with a ref
    that is [null] nothing is handed on.  With [dismissOnPanDown],
    [snapTo(-1)] on a rendered sheet asks the engine for index [0], the
    synthetic snap point. *)
Theorem snapTo_unchecked (s : Modal) (_index : Z) :
  isMinimized s = false ->
  let target := _index + (if dismissOnPanDown props then 1 else 0) in
  stateOf (handleSnapTo _index) s
  = mkModal (mount s) (bottomSheetRef s) (isMinimized s)
            (isForcedDismissed s) (currentIndexRef s) target (frames s) /\
  traceOf (handleSnapTo _index) s
  = (if bottomSheetRef s then [Sheet (SheetSnapTo target None)] else []) /\
  (dismissOnPanDown props = true ->
   traceOf (handleSnapTo (-1)) s
   = (if bottomSheetRef s then [Sheet (SheetSnapTo 0 None)] else []) /\
   nextIndexRef (stateOf (handleSnapTo (-1)) s) = 0 /\
   nth_error snapPoints 0 = Some (SnapNumber 0)).
Proof.
  intros Hm target. subst target. unfold stateOf, traceOf.
  rewrite (handleSnapTo_run s _index Hm), (handleSnapTo_run s (-1) Hm).
  cbn [fst snd]. split; [reflexivity|]. split; [reflexivity|].
  intros Hd. unfold snapPoints. rewrite Hd. repeat split.
Qed.

(** C1.  On a modal that was never presented, [present()] followed at
    once by [dismiss(force)] calls [onDismiss] zero times.  The dismissal
    only tells the host of the coming unmount (not forced) or sets
    [isForcedDismissed] (forced), resets [nextIndexRef] to [-1] and issues
    no engine command, as no sheet is rendered yet.  The frame callback
    of [present()] stays pending and is not cancelled: when it runs it
    sets [nextIndexRef] to the adjusted initial index, sets [mount] and
    registers the modal with the host, and the next render attaches the
    sheet. *)
Theorem present_then_dismiss (force : bool) :
  let calls := handlePresent ;; handleDismiss force in
  let dismissed := stateOf calls initial in
  traceOf calls initial = (if force then [] else [WillUnmountSheet key]) /\
  dismissed
  = mkModal false false false force (-1) (-1) [mkFrame index key] /\
  animationFrame dismissed
  = (tt, mkModal true false false force (-1) index [], [MountSheet key]) /\
  count isOnDismiss (traceOf (calls ;; animationFrame) initial) = 0%nat /\
  stateOf (calls ;; animationFrame ;; render) initial
  = mkModal true true false force (-1) index [].
Proof. destruct force; repeat split. Qed.

(** * Beyond the claims: every state, and runs of events *)

(** ** Sequencing *)

Lemma stateOf_then (A : Type) (m : M A) (k : M unit) (s : Modal) :
  stateOf (m ;; k) s = stateOf k (stateOf m s).
Proof. reflexivity. Qed.

Lemma traceOf_then (A : Type) (m : M A) (k : M unit) (s : Modal) :
  traceOf (m ;; k) s = traceOf m s ++ traceOf k (stateOf m s).
Proof. reflexivity. Qed.

Lemma then_run (m k : M unit) (s s1 s2 : Modal) (t1 t2 : list Effect) :
  m s = (tt, s1, t1) -> k s1 = (tt, s2, t2) -> (m ;; k) s = (tt, s2, t1 ++ t2).
Proof. intros Hm Hk. unfold bind. rewrite Hm; cbn. rewrite Hk. reflexivity. Qed.

Lemma run_eta (m : M unit) (s : Modal) :
  m s = (tt, stateOf m s, traceOf m s).
Proof. unfold stateOf, traceOf. destruct (m s) as [[[] s'] t]. reflexivity. Qed.

Lemma handleAll_app (l1 l2 : list Event) (s : Modal) :
  stateOf (handleAll (l1 ++ l2)) s
  = stateOf (handleAll l2) (stateOf (handleAll l1) s) /\
  traceOf (handleAll (l1 ++ l2)) s
  = traceOf (handleAll l1) s
      ++ traceOf (handleAll l2) (stateOf (handleAll l1) s).
Proof.
  revert s. induction l1 as [|e l1 IH]; intros s; [split; reflexivity|].
  cbn [app handleAll]. rewrite stateOf_then, traceOf_then.
  destruct (IH (stateOf (handle e) s)) as [IHs IHt].
  rewrite IHs, IHt, stateOf_then, traceOf_then, app_assoc. split; reflexivity.
Qed.

Lemma handleAll_reports (l : list Z) (s : Modal) :
  handleAll (map EngineChange l) s = reports l s.
Proof.
  revert s. induction l as [|i l IH]; intros s; [reflexivity|].
  cbn [map handleAll reports handle]. unfold bind. rewrite IH. reflexivity.
Qed.

Lemma count_app (f : Effect -> bool) (t u : list Effect) :
  count f (t ++ u) = (count f t + count f u)%nat.
Proof. unfold count. now rewrite filter_app, length_app. Qed.

(** ** Each handler, in every state *)

Lemma handleClose_any (s : Modal) :
  handleClose s
  = if isMinimized s then (tt, s, [])
    else (tt, setNextIndexRef (-1) s,
          if bottomSheetRef s then [Sheet SheetClose] else []).
Proof. run s. destruct mn, ref; reflexivity. Qed.

Lemma handleSnapTo_any (s : Modal) (_index : Z) :
  handleSnapTo _index s
  = if isMinimized s then (tt, s, [])
    else (tt,
          setNextIndexRef (_index + (if dismissOnPanDown props then 1 else 0)) s,
          if bottomSheetRef s
          then [Sheet (SheetSnapTo
                         (_index + (if dismissOnPanDown props then 1 else 0))
                         None)]
          else []).
Proof. run s. destruct mn, ref; reflexivity. Qed.

Lemma handleCollapse_any (s : Modal) :
  handleCollapse s
  = if isMinimized s then (tt, s, [])
    else (tt, setNextIndexRef (if dismissOnPanDown props then 1 else 0) s,
          if bottomSheetRef s
          then [Sheet (SheetSnapTo (if dismissOnPanDown props then 1 else 0) None)]
          else []).
Proof. run s. destruct mn, ref; reflexivity. Qed.

Lemma handleExpand_any (s : Modal) :
  handleExpand s
  = if isMinimized s then (tt, s, [])
    else (tt, setNextIndexRef (Z.of_nat (List.length snapPoints) - 1) s,
          if bottomSheetRef s then [Sheet SheetExpand] else []).
Proof. run s. destruct mn, ref; reflexivity. Qed.

Lemma handleMinimize_any (s : Modal) :
  handleMinimize s
  = if isMinimized s then (tt, s, [])
    else (tt, setIsMinimized true s,
          if bottomSheetRef s then [Sheet SheetClose] else []).
Proof. run s. destruct mn, ref; reflexivity. Qed.

Lemma handleRestore_any (s : Modal) :
  handleRestore s
  = if isMinimized s
    then (tt, setIsMinimized false s,
          if bottomSheetRef s
          then [Sheet (SheetSnapTo (nextIndexRef s) (Some true))] else [])
    else (tt, s, []).
Proof. run s. destruct mn, ref; reflexivity. Qed.

Lemma handleDismiss_any (force : bool) (s : Modal) :
  handleDismiss force s
  = if force then
      if isMinimized s then (tt, tornDown s, teardownTrace)
      else (tt,
            mkModal (mount s) (bottomSheetRef s) false true
                    (currentIndexRef s) (-1) (frames s),
            if bottomSheetRef s then [Sheet SheetClose] else [])
    else (tt, setNextIndexRef (-1) s,
          WillUnmountSheet key
            :: (if bottomSheetRef s then [Sheet SheetClose] else [])).
Proof.
  destruct force; [|apply handleDismiss_unforced].
  destruct (isMinimized s) eqn:Hm.
  - apply (handleDismiss_forced_minimized s Hm).
  - apply (handleDismiss_forced s Hm).
Qed.

Lemma handleOnChange_any (s : Modal) (_index : Z) :
  handleOnChange _index s
  = if isMinimized s && negb (isForcedDismissed s) then (tt, s, [])
    else if 0 <=? adjustedIndex _index
         then (tt, setNextIndexRef _index (setCurrentIndexRef _index s),
               if providedOnChange props
               then [OnChange (adjustedIndex _index)] else [])
         else (tt, tornDown s, teardownTrace).
Proof.
  destruct (isMinimized s && negb (isForcedDismissed s)) eqn:Hg.
  - apply andb_true_iff in Hg as [Hm Hf]. apply negb_true_iff in Hf.
    apply (handleOnChange_guarded s _index Hm Hf).
  - rewrite (handleOnChange_passed s _index Hg).
    destruct (Z.leb_spec 0 (adjustedIndex _index)) as [Hi|Hi].
    + apply (reportOrDismiss_open _ _index Hi).
    + rewrite (reportOrDismiss_closed _ _index Hi). reflexivity.
Qed.

Lemma handleOnUnmount_any (s : Modal) :
  handleOnUnmount s
  = if currentIndexRef s =? -1 then (tt, s, []) else handleDismiss true s.
Proof.
  unfold handleOnUnmount. rewrite read_bind.
  destruct (currentIndexRef s =? -1); reflexivity.
Qed.

(** What the pending closures do to the state, one after the other. *)
Lemma runFrames_run (l : list Frame) (s : Modal) :
  runFrames l s
  = (tt,
     fold_left (fun s' f => setMount true (setNextIndexRef (frameIndex f) s')) l s,
     map (fun f => MountSheet (frameKey f)) l).
Proof.
  revert s. induction l as [|f l IH]; intros s; [reflexivity|].
  cbn [runFrames fold_left map].
  apply (then_run (runFrame f) (runFrames l) s
                  (setMount true (setNextIndexRef (frameIndex f) s)) _
                  [MountSheet (frameKey f)] _); [reflexivity | apply IH].
Qed.

Lemma animationFrame_run (s : Modal) :
  animationFrame s
  = (tt,
     fold_left (fun s' f => setMount true (setNextIndexRef (frameIndex f) s'))
               (frames s) (setFrames [] s),
     map (fun f => MountSheet (frameKey f)) (frames s)).
Proof.
  unfold animationFrame. rewrite read_bind.
  apply (then_run (write (setFrames [])) (runFrames (frames s)) s
                  (setFrames [] s) _ [] _); [reflexivity | apply runFrames_run].
Qed.

(** ** The trace of one event *)

(** An event either runs the teardown, and nothing else, or leaves a
    trace without any teardown entry and without a negative change
    notification. *)
Lemma handle_trace_shape (e : Event) (s : Modal) :
  traceOf (handle e) s = teardownTrace \/
  forallb quiet (traceOf (handle e) s) = true.
Proof.
  unfold traceOf. destruct e; cbn [handle].
  - rewrite handlePresent_run. now right.
  - rewrite handleDismiss_any.
    destruct force, (isMinimized s), (bottomSheetRef s); cbn; auto.
  - rewrite handleClose_any.
    destruct (isMinimized s), (bottomSheetRef s); cbn; auto.
  - rewrite handleCollapse_any.
    destruct (isMinimized s), (bottomSheetRef s); cbn; auto.
  - rewrite handleExpand_any.
    destruct (isMinimized s), (bottomSheetRef s); cbn; auto.
  - rewrite handleSnapTo_any.
    destruct (isMinimized s), (bottomSheetRef s); cbn; auto.
  - rewrite handleMinimize_any.
    destruct (isMinimized s), (bottomSheetRef s); cbn; auto.
  - rewrite handleRestore_any.
    destruct (isMinimized s), (bottomSheetRef s); cbn; auto.
  - rewrite handleOnChange_any.
    destruct (isMinimized s && negb (isForcedDismissed s)); [now right|].
    destruct (0 <=? adjustedIndex i) eqn:Hi; [right|now left].
    destruct (providedOnChange props); cbn; [|reflexivity].
    now rewrite Hi.
  - rewrite handleOnUnmount_any, handleDismiss_any.
    destruct (currentIndexRef s =? -1), (isMinimized s), (bottomSheetRef s);
      cbn; auto.
  - rewrite animationFrame_run. right. cbn [snd].
    induction (frames s) as [|f l IH]; [reflexivity|exact IH].
  - right. reflexivity.
Qed.

(** What holds of a teardown and of a quiet trace holds of every run. *)
Lemma handleAll_trace_ind (P : list Effect -> Prop) :
  P [] ->
  (forall t u, P t -> P u -> P (t ++ u)) ->
  P teardownTrace ->
  (forall t, forallb quiet t = true -> P t) ->
  forall (l : list Event) (s : Modal), P (traceOf (handleAll l) s).
Proof.
  intros Hnil Happ Htear Hquiet l.
  induction l as [|e l IH]; intros s; [exact Hnil|].
  cbn [handleAll]. rewrite traceOf_then. apply Happ; [|apply IH].
  destruct (handle_trace_shape e s) as [H|H]; [rewrite H; exact Htear|].
  apply Hquiet, H.
Qed.

Lemma quiet_count (f : Effect -> bool) (t : list Effect) :
  (forall e, f e = true -> quiet e = false) ->
  forallb quiet t = true -> count f t = 0%nat.
Proof.
  intros Hf. unfold count. induction t as [|e t IH]; [reflexivity|].
  cbn [forallb filter]. intros Hq. apply andb_true_iff in Hq as [He Ht].
  destruct (f e) eqn:Hfe; [rewrite (Hf e Hfe) in He; discriminate|].
  apply IH, Ht.
Qed.

(** X2.  Over any run of events from any state, the caller's [onChange]
    never receives a negative index. *)
Theorem onChange_never_negative (l : list Event) (s : Modal) (i : Z) :
  In (OnChange i) (traceOf (handleAll l) s) -> 0 <= i.
Proof.
  revert i.
  apply (handleAll_trace_ind
           (fun t => forall i, In (OnChange i) t -> 0 <= i)).
  - intros i [].
  - intros t u Ht Hu i Hin. apply in_app_or in Hin as [H|H]; auto.
  - intros i Hin. unfold teardownTrace in Hin.
    destruct (providedOnDismiss props); cbn in Hin;
      repeat (destruct Hin as [Hin|Hin]; [discriminate Hin|]); destruct Hin.
  - intros t Hq i Hin. rewrite forallb_forall in Hq.
    specialize (Hq _ Hin). cbn in Hq. now apply Z.leb_le.
Qed.

(** X3.  Over any run of events from any state, the sheet and the portal
    are unmounted equally often, and the caller's [onDismiss], when
    provided, is called once for each of these unmounts and at no other
    time. *)
Theorem onDismiss_once_per_teardown (l : list Event) (s : Modal) :
  count isUnmountSheet (traceOf (handleAll l) s)
  = count isUnmountPortal (traceOf (handleAll l) s) /\
  count isOnDismiss (traceOf (handleAll l) s)
  = (if providedOnDismiss props
     then count isUnmountSheet (traceOf (handleAll l) s) else 0%nat).
Proof.
  apply (handleAll_trace_ind
           (fun t => count isUnmountSheet t = count isUnmountPortal t /\
                     count isOnDismiss t
                     = (if providedOnDismiss props
                        then count isUnmountSheet t else 0%nat))).
  - destruct (providedOnDismiss props); split; reflexivity.
  - intros t u [Ht1 Ht2] [Hu1 Hu2]. rewrite !count_app.
    destruct (providedOnDismiss props); split; lia.
  - unfold teardownTrace.
    destruct (providedOnDismiss props); split; reflexivity.
  - intros t Hq.
    rewrite (quiet_count isUnmountSheet t), (quiet_count isUnmountPortal t),
      (quiet_count isOnDismiss t); trivial;
      try (intros [] He; try discriminate He; reflexivity).
    destruct (providedOnDismiss props); split; reflexivity.
Qed.

(** ** The state after one event *)

Lemma last_cons_default (A : Type) (x : A) (l : list A) (d d' : A) :
  last (x :: l) d = last (x :: l) d'.
Proof.
  revert x. induction l as [|y l IH]; intros x; [reflexivity|].
  change (last (y :: l) d = last (y :: l) d'). apply IH.
Qed.

Lemma frames_fold (l : list Frame) (s : Modal) :
  fold_left (fun s' f => setMount true (setNextIndexRef (frameIndex f) s')) l s
  = mkModal (match l with [] => mount s | _ => true end)
            (bottomSheetRef s) (isMinimized s) (isForcedDismissed s)
            (currentIndexRef s)
            (last (map frameIndex l) (nextIndexRef s)) (frames s).
Proof.
  revert s. induction l as [|f l IH]; intros s; [destruct s; reflexivity|].
  cbn [fold_left]. rewrite IH.
  destruct l as [|g l]; [reflexivity|].
  cbn [map]. rewrite (last_cons_default _ _ _ _ (nextIndexRef s)). reflexivity.
Qed.

(** Only an engine report or a teardown writes [currentIndexRef]. *)
Lemma handle_currentIndexRef (e : Event) (s : Modal) :
  currentIndexRef (stateOf (handle e) s) = currentIndexRef s \/
  currentIndexRef (stateOf (handle e) s) = -1 \/
  (exists i, e = EngineChange i /\ 0 <= adjustedIndex i /\
             currentIndexRef (stateOf (handle e) s) = i).
Proof.
  unfold stateOf. destruct e; cbn [handle].
  - rewrite handlePresent_run. now left.
  - rewrite handleDismiss_any. destruct force, (isMinimized s); cbn; auto.
  - rewrite handleClose_any. destruct (isMinimized s); cbn; auto.
  - rewrite handleCollapse_any. destruct (isMinimized s); cbn; auto.
  - rewrite handleExpand_any. destruct (isMinimized s); cbn; auto.
  - rewrite handleSnapTo_any. destruct (isMinimized s); cbn; auto.
  - rewrite handleMinimize_any. destruct (isMinimized s); cbn; auto.
  - rewrite handleRestore_any. destruct (isMinimized s); cbn; auto.
  - rewrite handleOnChange_any.
    destruct (isMinimized s && negb (isForcedDismissed s)); [now left|].
    destruct (Z.leb_spec 0 (adjustedIndex i)) as [Hi|Hi]; cbn; [|auto].
    right; right. exists i. auto.
  - rewrite handleOnUnmount_any, handleDismiss_any.
    destruct (currentIndexRef s =? -1), (isMinimized s); cbn; auto.
  - rewrite animationFrame_run, frames_fold. now left.
  - now left.
Qed.

(** X4.  [currentIndexRef] is [-1] or an index that is not negative in the
    caller's terms, and every run of events keeps it so: with
    [dismissOnPanDown] the ref never rests on the synthetic index [0]. *)
Theorem currentIndexRef_settled (l : list Event) (s : Modal) :
  currentIndexRef s = -1 \/ 0 <= adjustedIndex (currentIndexRef s) ->
  currentIndexRef (stateOf (handleAll l) s) = -1 \/
  0 <= adjustedIndex (currentIndexRef (stateOf (handleAll l) s)).
Proof.
  revert s. induction l as [|e l IH]; intros s Hs; [exact Hs|].
  cbn [handleAll]. rewrite stateOf_then. apply IH.
  destruct (handle_currentIndexRef e s) as [H|[H|(i & _ & Hi & H)]];
    rewrite H; auto.
Qed.

(** Without a render no event attaches the ref, and with a ref that is
    [null] no call reaches the engine. *)
Lemma handle_unrendered (e : Event) (s : Modal) :
  bottomSheetRef s = false -> isRender e = false ->
  bottomSheetRef (stateOf (handle e) s) = false /\
  count isSheet (traceOf (handle e) s) = 0%nat.
Proof.
  intros Href He. unfold stateOf, traceOf. destruct e; cbn [handle].
  - rewrite handlePresent_run. now split.
  - rewrite handleDismiss_any, Href.
    destruct force, (isMinimized s); cbn; split; trivial;
      apply teardownTrace_quiet.
  - rewrite handleClose_any, Href. destruct (isMinimized s); cbn; now split.
  - rewrite handleCollapse_any, Href. destruct (isMinimized s); cbn; now split.
  - rewrite handleExpand_any, Href. destruct (isMinimized s); cbn; now split.
  - rewrite handleSnapTo_any, Href. destruct (isMinimized s); cbn; now split.
  - rewrite handleMinimize_any, Href. destruct (isMinimized s); cbn; now split.
  - rewrite handleRestore_any, Href. destruct (isMinimized s); cbn; now split.
  - rewrite handleOnChange_any.
    destruct (isMinimized s && negb (isForcedDismissed s)); [now split|].
    destruct (0 <=? adjustedIndex i); cbn; split; trivial.
    + destruct (providedOnChange props); reflexivity.
    + apply teardownTrace_quiet.
  - rewrite handleOnUnmount_any, handleDismiss_any, Href.
    destruct (currentIndexRef s =? -1), (isMinimized s); cbn; split; trivial;
      apply teardownTrace_quiet.
  - rewrite animationFrame_run, frames_fold. cbn. split; [exact Href|].
    induction (frames s) as [|f l IH]; [reflexivity|exact IH].
  - discriminate He.
Qed.

(** X5.  As long as no render has attached the sheet, nothing reaches the
    engine: over any run of events without a render, from a state whose
    [bottomSheetRef] is [null], the ref stays [null] and the trace holds
    no engine command. *)
Theorem no_engine_command_before_render (l : list Event) (s : Modal) :
  bottomSheetRef s = false ->
  forallb (fun e => negb (isRender e)) l = true ->
  bottomSheetRef (stateOf (handleAll l) s) = false /\
  count isSheet (traceOf (handleAll l) s) = 0%nat.
Proof.
  revert s. induction l as [|e l IH]; intros s Href Hl; [now split|].
  cbn [forallb] in Hl. apply andb_true_iff in Hl as [He Hl].
  apply negb_true_iff in He.
  destruct (handle_unrendered e s Href He) as [Hr Ht].
  destruct (IH _ Hr Hl) as [IHr IHt].
  cbn [handleAll]. rewrite stateOf_then, traceOf_then, count_app, Ht, IHt.
  split; [exact IHr|reflexivity].
Qed.

(** ** Runs, step by step *)

Lemma handleAll_nil (s : Modal) : handleAll [] s = (tt, s, []).
Proof. reflexivity. Qed.

Lemma handleAll_cons (e : Event) (l : list Event) (s s1 s2 : Modal)
      (t1 t2 : list Effect) :
  handle e s = (tt, s1, t1) -> handleAll l s1 = (tt, s2, t2) ->
  handleAll (e :: l) s = (tt, s2, t1 ++ t2).
Proof. apply then_run. Qed.

Lemma handleAll_snoc (l : list Event) (e : Event) (s s1 s2 : Modal)
      (t1 t2 : list Effect) :
  handleAll l s = (tt, s1, t1) -> handle e s1 = (tt, s2, t2) ->
  handleAll (l ++ [e]) s = (tt, s2, t1 ++ t2).
Proof.
  intros Hl He. rewrite run_eta. destruct (handleAll_app l [e] s) as [Hs Ht].
  rewrite Hs, Ht. unfold stateOf, traceOf. rewrite Hl; cbn [fst snd].
  rewrite (handleAll_cons e [] s1 s2 s2 t2 [] He (handleAll_nil s2)).
  cbn [fst snd]. now rewrite app_nil_r.
Qed.

Lemma setNextIndexRef_same (s : Modal) :
  setNextIndexRef (nextIndexRef s) s = s.
Proof. destruct s; reflexivity. Qed.

Lemma last_cons_shift (A : Type) (x : A) (l : list A) (d : A) :
  last (x :: l) d = last l x.
Proof.
  destruct l as [|y l]; [reflexivity|].
  change (last (y :: l) d = last (y :: l) x). apply last_cons_default.
Qed.

(** X6.  [close], [collapse], [expand], [snapTo] and a plain [dismiss()]
    write no field but [nextIndexRef], in every state, rendered or not,
    minimized or not; they call neither callback, unmount nothing, and
    send the engine one command at most. *)
Theorem intents_write_only_nextIndexRef (e : Event) (s : Modal) :
  isIntent e = true ->
  stateOf (handle e) s
  = setNextIndexRef (nextIndexRef (stateOf (handle e) s)) s /\
  count isOnChange (traceOf (handle e) s) = 0%nat /\
  count isOnDismiss (traceOf (handle e) s) = 0%nat /\
  count isUnmountSheet (traceOf (handle e) s) = 0%nat /\
  count isUnmountPortal (traceOf (handle e) s) = 0%nat /\
  (count isSheet (traceOf (handle e) s) <= 1)%nat.
Proof.
  intros He. unfold stateOf, traceOf.
  destruct e as [|[|]| | | | | | | | | |]; try discriminate He; cbn [handle].
  - rewrite handleDismiss_any. destruct (bottomSheetRef s); cbn; repeat split; lia.
  - rewrite handleClose_any.
    destruct (isMinimized s), (bottomSheetRef s); cbn;
      rewrite ?setNextIndexRef_same; repeat split; lia.
  - rewrite handleCollapse_any.
    destruct (isMinimized s), (bottomSheetRef s); cbn;
      rewrite ?setNextIndexRef_same; repeat split; lia.
  - rewrite handleExpand_any.
    destruct (isMinimized s), (bottomSheetRef s); cbn;
      rewrite ?setNextIndexRef_same; repeat split; lia.
  - rewrite handleSnapTo_any.
    destruct (isMinimized s), (bottomSheetRef s); cbn;
      rewrite ?setNextIndexRef_same; repeat split; lia.
Qed.

(** X7.  [collapse()] is [snapTo(0)], in every state; and [expand()] leaves
    the state [snapTo] leaves for the caller's last index. *)
Theorem collapse_expand_as_snapTo (s : Modal) :
  handleCollapse s = handleSnapTo 0 s /\
  stateOf handleExpand s
  = stateOf (handleSnapTo
               (Z.of_nat (List.length (providedSnapPoints props)) - 1)) s.
Proof.
  split.
  - rewrite handleCollapse_any, handleSnapTo_any.
    destruct (dismissOnPanDown props); reflexivity.
  - unfold stateOf. rewrite handleExpand_any, handleSnapTo_any.
    destruct (isMinimized s); [reflexivity|]. cbn [fst snd]. f_equal.
    rewrite snapPoints_length. destruct (dismissOnPanDown props); lia.
Qed.

(** X8.  The index the caller hears through [onChange], handed back to
    [snapTo], is the engine index that was reported: right after an open
    report, [snapTo] of the notified index asks the engine for the index
    it is at and leaves the state as the report left it. *)
Theorem snapTo_reported_index (s : Modal) (_index : Z) :
  isMinimized s = false -> 0 <= adjustedIndex _index ->
  handleSnapTo (adjustedIndex _index) s
  = (tt, setNextIndexRef _index s,
     if bottomSheetRef s then [Sheet (SheetSnapTo _index None)] else []) /\
  stateOf (handleAll [EngineChange _index; SnapTo (adjustedIndex _index)]) s
  = stateOf (handle (EngineChange _index)) s /\
  traceOf (handleAll [EngineChange _index; SnapTo (adjustedIndex _index)]) s
  = (if providedOnChange props then [OnChange (adjustedIndex _index)] else [])
      ++ (if bottomSheetRef s then [Sheet (SheetSnapTo _index None)] else []).
Proof.
  intros Hm Hi.
  assert (Hback : adjustedIndex _index
                  + (if dismissOnPanDown props then 1 else 0) = _index).
  { unfold adjustedIndex. destruct (dismissOnPanDown props); lia. }
  assert (Hsnap : forall s', isMinimized s' = false ->
             handleSnapTo (adjustedIndex _index) s'
             = (tt, setNextIndexRef _index s',
                if bottomSheetRef s'
                then [Sheet (SheetSnapTo _index None)] else [])).
  { intros s' Hm'. rewrite handleSnapTo_any, Hm', Hback. reflexivity. }
  assert (Hrep : handle (EngineChange _index) s
                 = (tt, setNextIndexRef _index (setCurrentIndexRef _index s),
                    if providedOnChange props
                    then [OnChange (adjustedIndex _index)] else [])).
  { cbn [handle]. rewrite handleOnChange_any, Hm. cbn [andb].
    apply Z.leb_le in Hi. now rewrite Hi. }
  split; [apply (Hsnap s Hm)|].
  unfold stateOf, traceOf.
  pose proof (Hsnap (setNextIndexRef _index (setCurrentIndexRef _index s)) Hm)
    as Hnext.
  rewrite (handleAll_cons (EngineChange _index) _ _ _ _ _ _ Hrep
             (handleAll_cons (SnapTo (adjustedIndex _index)) [] _ _ _ _ _
                             Hnext (handleAll_nil _))).
  rewrite Hrep. cbn [fst snd]. rewrite app_nil_r. split; reflexivity.
Qed.

(** X9.  Open reports are forwarded one by one, in order, un-adjusted; the
    two index refs end on the last reported index and nothing else
    changes. *)
Theorem open_reports_forwarded (l : list Z) (s : Modal) :
  isMinimized s && negb (isForcedDismissed s) = false ->
  Forall (fun i => 0 <= adjustedIndex i) l ->
  stateOf (reports l) s
  = mkModal (mount s) (bottomSheetRef s) (isMinimized s) (isForcedDismissed s)
            (last l (currentIndexRef s)) (last l (nextIndexRef s)) (frames s) /\
  traceOf (reports l) s
  = (if providedOnChange props
     then map (fun i => OnChange (adjustedIndex i)) l else []).
Proof.
  revert s. induction l as [|i l IH]; intros s Hg Hl.
  - destruct s, (providedOnChange props); split; reflexivity.
  - inversion Hl as [|? ? Hi Hl']; subst.
    cbn [reports]. rewrite stateOf_then, traceOf_then.
    unfold stateOf at 2, traceOf at 1, stateOf at 2.
    rewrite handleOnChange_any, Hg.
    apply Z.leb_le in Hi. rewrite Hi. cbn [fst snd].
    destruct (IH (setNextIndexRef i (setCurrentIndexRef i s)) Hg Hl')
      as [IHs IHt].
    rewrite IHs, IHt, !last_cons_shift. cbn.
    destruct (providedOnChange props); split; reflexivity.
Qed.

(** ** Compositions *)

(** A closing report on a state that passes the guard. *)
Lemma closing_report (s : Modal) (_index : Z) :
  isMinimized s && negb (isForcedDismissed s) = false ->
  adjustedIndex _index < 0 ->
  handle (EngineChange _index) s = (tt, tornDown s, teardownTrace).
Proof.
  intros Hg Hi. cbn [handle]. rewrite handleOnChange_any, Hg.
  destruct (Z.leb_spec 0 (adjustedIndex _index)); [lia|reflexivity].
Qed.

(** X10.  A whole presentation cycle.  From the never-presented state:
    [present()], the animation frame, the render, the engine's first
    report of the initial index, [dismiss(force)], the engine's closing
    report and the render that follows.  The component is back in the
    never-presented state; the host saw one mount, the caller one
    [onChange] with its own initial index and one [onDismiss], the engine
    one [close()]. *)
Theorem presentation_cycle (force : bool) (closing : Z) :
  0 <= providedIndex props -> adjustedIndex closing < 0 ->
  handleAll [Present; AnimationFrame; Render; EngineChange index;
             Dismiss force; EngineChange closing; Render] initial
  = (tt, initial,
     [MountSheet key]
       ++ (if providedOnChange props
           then [OnChange (providedIndex props)] else [])
       ++ (if force then [] else [WillUnmountSheet key])
       ++ [Sheet SheetClose; UnmountSheet key; UnmountPortal key]
       ++ (if providedOnDismiss props then [OnDismiss] else [])).
Proof.
  intros Hidx Hclosing.
  assert (Hadj : adjustedIndex index = providedIndex props).
  { unfold adjustedIndex, index. destruct (dismissOnPanDown props); lia. }
  assert (Hopen : handle (EngineChange index)
                         (mkModal true true false false (-1) index [])
                  = (tt, mkModal true true false false index index [],
                     if providedOnChange props
                     then [OnChange (providedIndex props)] else [])).
  { cbn [handle]. rewrite handleOnChange_any, Hadj. cbn [isMinimized andb].
    apply Z.leb_le in Hidx. now rewrite Hidx. }
  assert (Hdismiss : handle (Dismiss force)
                            (mkModal true true false false index index [])
                     = (tt, mkModal true true false force index (-1) [],
                        (if force then [] else [WillUnmountSheet key])
                          ++ [Sheet SheetClose])).
  { cbn [handle]. rewrite handleDismiss_any. destruct force; reflexivity. }
  assert (Hclose : handle (EngineChange closing)
                          (mkModal true true false force index (-1) [])
                   = (tt, mkModal false true false false (-1) (-1) [],
                      teardownTrace)).
  { apply (closing_report (mkModal true true false force index (-1) [])
                          closing eq_refl Hclosing). }
  assert (Hpresent : handle Present initial
                     = (tt, mkModal false false false false (-1) (-1)
                                    [mkFrame index key], [])) by reflexivity.
  assert (Hframe : handle AnimationFrame
                          (mkModal false false false false (-1) (-1)
                                   [mkFrame index key])
                   = (tt, mkModal true false false false (-1) index [],
                      [MountSheet key])) by reflexivity.
  assert (Hrender : handle Render (mkModal true false false false (-1) index [])
                    = (tt, mkModal true true false false (-1) index [], []))
    by reflexivity.
  assert (Hgone : handle Render (mkModal false true false false (-1) (-1) [])
                  = (tt, initial, [])) by reflexivity.
  pose proof (handleAll_cons _ _ _ _ _ _ _ Hgone (handleAll_nil _)) as H7.
  pose proof (handleAll_cons _ _ _ _ _ _ _ Hclose H7) as H6.
  pose proof (handleAll_cons _ _ _ _ _ _ _ Hdismiss H6) as H5.
  pose proof (handleAll_cons _ _ _ _ _ _ _ Hopen H5) as H4.
  pose proof (handleAll_cons _ _ _ _ _ _ _ Hrender H4) as H3.
  pose proof (handleAll_cons _ _ _ _ _ _ _ Hframe H3) as H2.
  rewrite (handleAll_cons _ _ _ _ _ _ _ Hpresent H2).
  unfold teardownTrace.
  destruct (providedOnChange props), (providedOnDismiss props), force;
    reflexivity.
Qed.

(** X11.  The portal's unmount callback after a teardown does nothing, so
    [onDismiss] is not called a second time: after a closing report,
    after a forced dismissal of a minimized sheet, and on a component
    that was never presented. *)
Theorem host_unmount_after_teardown (s : Modal) (_index : Z) :
  (isMinimized s && negb (isForcedDismissed s) = false ->
   adjustedIndex _index < 0 ->
   handleAll [EngineChange _index; HostUnmount] s
   = (tt, tornDown s, teardownTrace)) /\
  (isMinimized s = true ->
   handleAll [Dismiss true; HostUnmount] s = (tt, tornDown s, teardownTrace)) /\
  (currentIndexRef s = -1 -> handleOnUnmount s = (tt, s, [])).
Proof.
  assert (Hafter : handleAll [HostUnmount] (tornDown s) = (tt, tornDown s, [])).
  { assert (Hhost : handle HostUnmount (tornDown s) = (tt, tornDown s, []))
      by reflexivity.
    apply (handleAll_cons HostUnmount [] _ _ _ [] [] Hhost (handleAll_nil _)). }
  split; [|split].
  - intros Hg Hi.
    rewrite (handleAll_cons _ _ _ _ _ _ _ (closing_report s _index Hg Hi) Hafter).
    now rewrite app_nil_r.
  - intros Hm.
    rewrite (handleAll_cons (Dismiss true) _ _ _ _ _ _
                            (handleDismiss_forced_minimized s Hm) Hafter).
    now rewrite app_nil_r.
  - intros Hc. rewrite handleOnUnmount_any, Hc. reflexivity.
Qed.

(** X12.  When the host unmounts a sheet that is still presented, the
    teardown runs exactly once: at once when the sheet is minimized, and
    otherwise, after one [close()] to the engine, at the closing
    report. *)
Theorem host_unmount_while_presented (s : Modal) (_index : Z) :
  currentIndexRef s <> -1 -> adjustedIndex _index < 0 ->
  handleAll (if isMinimized s then [HostUnmount]
             else [HostUnmount; EngineChange _index]) s
  = (tt, tornDown s,
     (if isMinimized s then []
      else if bottomSheetRef s then [Sheet SheetClose] else [])
       ++ teardownTrace).
Proof.
  intros Hc Hi. apply Z.eqb_neq in Hc.
  assert (Hhost : handle HostUnmount s = handleDismiss true s).
  { cbn [handle]. now rewrite handleOnUnmount_any, Hc. }
  destruct (isMinimized s) eqn:Hm.
  - rewrite (handleDismiss_forced_minimized s Hm) in Hhost.
    rewrite (handleAll_cons HostUnmount [] _ _ _ _ _ Hhost (handleAll_nil _)).
    now rewrite app_nil_r.
  - rewrite (handleDismiss_forced s Hm) in Hhost.
    pose proof (closing_report
                  (mkModal (mount s) (bottomSheetRef s) false true
                           (currentIndexRef s) (-1) (frames s))
                  _index eq_refl Hi) as Hclose.
    rewrite (handleAll_cons HostUnmount _ _ _ _ _ _ Hhost
               (handleAll_cons (EngineChange _index) [] _ _ _ _ _ Hclose
                               (handleAll_nil _))).
    now rewrite app_nil_r.
Qed.

(** X13.  From a state that is not minimized.  A forced dismissal is not
    held back by a later [minimize()]: the closing report still passes
    the guard and tears down.  A plain dismissal is held back when no
    forced dismissal is in flight: after [minimize()] the closing report
    is dropped and nothing is torn down.  When a forced dismissal is
    already in flight, the plain dismissal followed by [minimize()] is
    not held back either: the closing report tears down. *)
Theorem forced_dismissal_survives_minimize (s : Modal) (_index : Z) :
  isMinimized s = false -> adjustedIndex _index < 0 ->
  let closes := if bottomSheetRef s then [Sheet SheetClose] else [] in
  handleAll [Dismiss true; Minimize; EngineChange _index] s
  = (tt, tornDown s, closes ++ closes ++ teardownTrace) /\
  (isForcedDismissed s = false ->
   handleAll [Dismiss false; Minimize; EngineChange _index] s
   = (tt,
      mkModal (mount s) (bottomSheetRef s) true false
              (currentIndexRef s) (-1) (frames s),
      WillUnmountSheet key :: closes ++ closes)) /\
  (isForcedDismissed s = true ->
   handleAll [Dismiss false; Minimize; EngineChange _index] s
   = (tt, tornDown s,
      WillUnmountSheet key :: closes ++ closes ++ teardownTrace)).
Proof.
  intros Hm Hi closes. subst closes. split; [|split].
  - assert (H1 : handle (Dismiss true) s
                 = (tt,
                    mkModal (mount s) (bottomSheetRef s) false true
                            (currentIndexRef s) (-1) (frames s),
                    if bottomSheetRef s then [Sheet SheetClose] else []))
      by apply (handleDismiss_forced s Hm).
    assert (H2 : handle Minimize
                        (mkModal (mount s) (bottomSheetRef s) false true
                                 (currentIndexRef s) (-1) (frames s))
                 = (tt,
                    mkModal (mount s) (bottomSheetRef s) true true
                            (currentIndexRef s) (-1) (frames s),
                    if bottomSheetRef s then [Sheet SheetClose] else []))
      by (cbn [handle]; rewrite handleMinimize_any; reflexivity).
    pose proof (closing_report
                  (mkModal (mount s) (bottomSheetRef s) true true
                           (currentIndexRef s) (-1) (frames s))
                  _index eq_refl Hi) as H3.
    pose proof (handleAll_cons _ _ _ _ _ _ _ H3 (handleAll_nil _)) as R3.
    pose proof (handleAll_cons _ _ _ _ _ _ _ H2 R3) as R2.
    rewrite (handleAll_cons _ _ _ _ _ _ _ H1 R2). now rewrite app_nil_r.
  - intros Hf.
    assert (H1 : handle (Dismiss false) s
                 = (tt, setNextIndexRef (-1) s,
                    WillUnmountSheet key
                      :: (if bottomSheetRef s then [Sheet SheetClose] else [])))
      by apply handleDismiss_unforced.
    assert (H2 : handle Minimize (setNextIndexRef (-1) s)
                 = (tt, setIsMinimized true (setNextIndexRef (-1) s),
                    if bottomSheetRef s then [Sheet SheetClose] else [])).
    { cbn [handle]. rewrite handleMinimize_any. cbn. now rewrite Hm. }
    assert (H3 : handle (EngineChange _index)
                        (setIsMinimized true (setNextIndexRef (-1) s))
                 = (tt, setIsMinimized true (setNextIndexRef (-1) s), []))
      by apply (handleOnChange_guarded
                  (setIsMinimized true (setNextIndexRef (-1) s))
                  _index eq_refl Hf).
    pose proof (handleAll_cons _ _ _ _ _ _ _ H3 (handleAll_nil _)) as R3.
    pose proof (handleAll_cons _ _ _ _ _ _ _ H2 R3) as R2.
    rewrite (handleAll_cons _ _ _ _ _ _ _ H1 R2).
    unfold setIsMinimized, setNextIndexRef.
    cbn [mount bottomSheetRef isMinimized isForcedDismissed currentIndexRef
         nextIndexRef frames].
    rewrite Hf, app_nil_r. reflexivity.
  - intros Hf.
    assert (H1 : handle (Dismiss false) s
                 = (tt, setNextIndexRef (-1) s,
                    WillUnmountSheet key
                      :: (if bottomSheetRef s then [Sheet SheetClose] else [])))
      by apply handleDismiss_unforced.
    assert (H2 : handle Minimize (setNextIndexRef (-1) s)
                 = (tt, setIsMinimized true (setNextIndexRef (-1) s),
                    if bottomSheetRef s then [Sheet SheetClose] else [])).
    { cbn [handle]. rewrite handleMinimize_any. cbn. now rewrite Hm. }
    assert (Hg : isMinimized (setIsMinimized true (setNextIndexRef (-1) s))
                 && negb (isForcedDismissed
                            (setIsMinimized true (setNextIndexRef (-1) s)))
                 = false).
    { cbn. now rewrite Hf. }
    pose proof (closing_report
                  (setIsMinimized true (setNextIndexRef (-1) s))
                  _index Hg Hi) as H3.
    pose proof (handleAll_cons _ _ _ _ _ _ _ H3 (handleAll_nil _)) as R3.
    pose proof (handleAll_cons _ _ _ _ _ _ _ H2 R3) as R2.
    rewrite (handleAll_cons _ _ _ _ _ _ _ H1 R2).
    rewrite app_nil_r. reflexivity.
Qed.

(** X14.  A plain [dismiss()] of a minimized sheet tears nothing down, however
    many reports follow; [restore()] then sends the engine to index [-1],
    animated, and the closing report that follows runs the teardown. *)
Theorem dismiss_while_minimized_deferred (s : Modal) (l : list Z) (_index : Z) :
  isMinimized s = true -> isForcedDismissed s = false ->
  bottomSheetRef s = true -> adjustedIndex _index < 0 ->
  handleAll (Dismiss false :: map EngineChange l) s
  = (tt, setNextIndexRef (-1) s, [WillUnmountSheet key; Sheet SheetClose]) /\
  handleAll ((Dismiss false :: map EngineChange l) ++ [Restore]) s
  = (tt,
     mkModal (mount s) (bottomSheetRef s) false false
             (currentIndexRef s) (-1) (frames s),
     [WillUnmountSheet key; Sheet SheetClose;
      Sheet (SheetSnapTo (-1) (Some true))]) /\
  handleAll (((Dismiss false :: map EngineChange l) ++ [Restore])
               ++ [EngineChange _index]) s
  = (tt, tornDown s,
     [WillUnmountSheet key; Sheet SheetClose;
      Sheet (SheetSnapTo (-1) (Some true))] ++ teardownTrace).
Proof.
  intros Hm Hf Href Hi.
  assert (H1 : handleAll (Dismiss false :: map EngineChange l) s
               = (tt, setNextIndexRef (-1) s,
                  [WillUnmountSheet key; Sheet SheetClose])).
  { assert (Hd : handle (Dismiss false) s
                 = (tt, setNextIndexRef (-1) s,
                    [WillUnmountSheet key; Sheet SheetClose])).
    { cbn [handle]. now rewrite handleDismiss_unforced, Href. }
    rewrite (handleAll_cons _ _ _ _ _ _ _ Hd
               (eq_trans (handleAll_reports l _)
                         (reports_guarded l (setNextIndexRef (-1) s) Hm Hf))).
    reflexivity. }
  assert (H2 : handle Restore (setNextIndexRef (-1) s)
               = (tt,
                  mkModal (mount s) (bottomSheetRef s) false false
                          (currentIndexRef s) (-1) (frames s),
                  [Sheet (SheetSnapTo (-1) (Some true))])).
  { cbn [handle]. rewrite handleRestore_any.
    unfold setIsMinimized, setNextIndexRef.
    cbn [mount bottomSheetRef isMinimized isForcedDismissed currentIndexRef
         nextIndexRef frames].
    now rewrite Hm, Href, Hf. }
  pose proof (handleAll_snoc _ _ _ _ _ _ _ H1 H2) as R2.
  pose proof (closing_report
                (mkModal (mount s) (bottomSheetRef s) false false
                         (currentIndexRef s) (-1) (frames s))
                _index eq_refl Hi) as H3.
  pose proof (handleAll_snoc _ _ _ _ _ _ _ R2 H3) as R3.
  split; [exact H1|]. split; [exact R2|exact R3].
Qed.

(** ** Before the first frame *)

(** An intent on a component that is not rendered and not minimized
    touches [nextIndexRef] only and calls nothing but [willUnmountSheet]. *)
Lemma intent_unrendered (e : Event) (n : Z) (fr : list Frame) :
  isIntent e = true ->
  exists (n' : Z) (t : list Effect),
    handle e (mkModal false false false false (-1) n fr)
    = (tt, mkModal false false false false (-1) n' fr, t) /\
    filter (fun x => negb (isWillUnmountSheet x)) t = [].
Proof.
  intros He.
  destruct e as [|[|]| | | | | | | | | |]; try discriminate He; cbn [handle].
  - rewrite handleDismiss_any. do 2 eexists. split; reflexivity.
  - rewrite handleClose_any. do 2 eexists. split; reflexivity.
  - rewrite handleCollapse_any. do 2 eexists. split; reflexivity.
  - rewrite handleExpand_any. do 2 eexists. split; reflexivity.
  - rewrite handleSnapTo_any. do 2 eexists. split; reflexivity.
Qed.

Lemma intents_unrendered (l : list Event) (n : Z) (fr : list Frame) :
  forallb isIntent l = true ->
  exists (n' : Z) (t : list Effect),
    handleAll l (mkModal false false false false (-1) n fr)
    = (tt, mkModal false false false false (-1) n' fr, t) /\
    filter (fun x => negb (isWillUnmountSheet x)) t = [].
Proof.
  revert n. induction l as [|e l IH]; intros n Hl.
  - exists n, []. split; reflexivity.
  - cbn [forallb] in Hl. apply andb_true_iff in Hl as [He Hl].
    destruct (intent_unrendered e n fr He) as (n1 & t1 & H1 & F1).
    destruct (IH n1 Hl) as (n2 & t2 & H2 & F2).
    exists n2, (t1 ++ t2). split.
    + apply (handleAll_cons _ _ _ _ _ _ _ H1 H2).
    + now rewrite filter_app, F1, F2.
Qed.

(** X15.  What is asked between [present()] and its animation frame is lost.
    After any run of [close], [collapse], [expand], [snapTo] and plain
    [dismiss()] calls, the frame mounts the modal at the adjusted initial
    index all the same; apart from the [willUnmountSheet] notices of the
    dismissals, the one call made is the [mountSheet] of the frame. *)
Theorem pending_present_overrides_intents (l : list Event) :
  forallb isIntent l = true ->
  stateOf (handleAll ((Present :: l) ++ [AnimationFrame])) initial
  = mkModal true false false false (-1) index [] /\
  filter (fun x => negb (isWillUnmountSheet x))
         (traceOf (handleAll ((Present :: l) ++ [AnimationFrame])) initial)
  = [MountSheet key].
Proof.
  intros Hl.
  destruct (intents_unrendered l (-1) [mkFrame index key] Hl)
    as (n & t & Hrun & Hfilter).
  assert (Hpresent : handle Present initial
                     = (tt, mkModal false false false false (-1) (-1)
                                    [mkFrame index key], [])) by reflexivity.
  pose proof (handleAll_cons _ _ _ _ _ _ _ Hpresent Hrun) as H1.
  assert (Hframe : handle AnimationFrame
                          (mkModal false false false false (-1) n
                                   [mkFrame index key])
                   = (tt, mkModal true false false false (-1) index [],
                      [MountSheet key])) by reflexivity.
  unfold stateOf, traceOf.
  rewrite (handleAll_snoc _ _ _ _ _ _ _ H1 Hframe). cbn [fst snd app].
  split; [reflexivity|]. now rewrite filter_app, Hfilter.
Qed.

Lemma presents_run (n : nat) (s : Modal) :
  presents n s
  = (tt, setFrames (frames s ++ repeat (mkFrame index key) n) s, []).
Proof.
  revert s. induction n as [|n IH]; intros s.
  - cbn [presents repeat]. rewrite app_nil_r. destruct s; reflexivity.
  - cbn [presents repeat].
    rewrite (then_run handlePresent (presents n) s _ _ _ _
                      (handlePresent_run s) (IH _)).
    cbn. now rewrite <- app_assoc.
Qed.

Lemma last_repeat (A : Type) (x d : A) (n : nat) :
  last (repeat x (S n)) d = x.
Proof.
  induction n as [|n IH]; [reflexivity|].
  change (last (repeat x (S n)) d = x). exact IH.
Qed.

(** X16.  [present()] called again before the frame has run queues one more
    callback: the frame then registers the modal with the host once per
    call, always under the same key, and leaves it mounted at the
    adjusted initial index. *)
Theorem repeated_present (n : nat) :
  (presents (S n) ;; animationFrame) initial
  = (tt, mkModal true false false false (-1) index [],
     repeat (MountSheet key) (S n)).
Proof.
  rewrite (then_run (presents (S n)) animationFrame initial _ _ _ _
                    (presents_run (S n) initial) (animationFrame_run _)).
  rewrite frames_fold.
  cbn [frames setFrames initial app mount bottomSheetRef isMinimized
       isForcedDismissed currentIndexRef nextIndexRef].
  rewrite !map_repeat, last_repeat. reflexivity.
Qed.

End Controller.

(** * The claims at concrete inputs *)

(** C1, as stated, fails.  [present()] and at once [dismiss()] with the default props, then the
    animation frame: [onDismiss] is not called once, and the state is not
    the never-presented one (the modal is mounted, with intended index
    [1]). *)
Lemma present_then_dismiss_counterexample :
  let calls :=
    handlePresent sampleProps "id" ;; handleDismiss sampleProps "id" false ;;
    animationFrame in
  ~ (count isOnDismiss (traceOf calls initial) = 1%nat /\
     mount (stateOf calls initial) = false /\
     currentIndexRef (stateOf calls initial) = -1 /\
     nextIndexRef (stateOf calls initial) = -1 /\
     isMinimized (stateOf calls initial) = false /\
     isForcedDismissed (stateOf calls initial) = false).
Proof. cbv zeta. intros [Hcount _]. vm_compute in Hcount. discriminate Hcount. Qed.

Lemma minimized_reports_ignored_witness :
  isMinimized (minimizedAt 1) = true /\
  isForcedDismissed (minimizedAt 1) = false /\
  stateOf (reports sampleProps "id" [0; 2; 1]) (minimizedAt 1) = minimizedAt 1 /\
  traceOf (reports sampleProps "id" [0; 2; 1]) (minimizedAt 1) = [].
Proof.
  split; [reflexivity|]. split; [reflexivity|].
  destruct (minimized_reports_ignored sampleProps "id" (minimizedAt 1)
              eq_refl eq_refl) as [_ H].
  destruct (H [0; 2; 1]) as (Hs & Ht & _). split; assumption.
Defined.

Lemma report_reconciliation_witness :
  isMinimized (presentedAt 1) && negb (isForcedDismissed (presentedAt 1)) = false /\
  adjustedIndex sampleProps 0 < 0 /\
  traceOf (handleOnChange sampleProps "id" 0) (presentedAt 1)
  = [UnmountSheet "bottom-sheet-modal-id"; UnmountPortal "bottom-sheet-modal-id";
     OnDismiss] /\
  stateOf (handleOnChange sampleProps "id" 0) (presentedAt 1)
  = mkModal false true false false (-1) (-1) [] /\
  0 <= adjustedIndex sampleProps 2 /\
  traceOf (handleOnChange sampleProps "id" 2) (presentedAt 1) = [OnChange 1].
Proof.
  split; [reflexivity|]. split; [reflexivity|].
  destruct (report_reconciliation sampleProps "id" (presentedAt 1) 0 eq_refl)
    as [Hclosed _].
  destruct (Hclosed eq_refl) as (Hs & Ht & _).
  split; [exact Ht|]. split; [exact Hs|].
  split; [vm_compute; discriminate|].
  destruct (report_reconciliation sampleProps "id" (presentedAt 1) 2 eq_refl)
    as [_ Hopen].
  destruct Hopen as (_ & Ht2 & _); [vm_compute; discriminate | exact Ht2].
Defined.

Lemma report_aligns_indices_witness :
  isMinimized (presentedAt 1) && negb (isForcedDismissed (presentedAt 1)) = false /\
  currentIndexRef (stateOf (handleOnChange sampleProps "id" 2) (presentedAt 1))
  = nextIndexRef (stateOf (handleOnChange sampleProps "id" 2) (presentedAt 1)).
Proof.
  split; [reflexivity|].
  exact (proj1 (report_aligns_indices sampleProps "id" (presentedAt 1) 2 eq_refl)).
Defined.

(** C2, as stated, fails.  On a component that was never presented
    neither [dismiss()] nor [dismiss(true)] issues the engine's
    [close()]; and after a plain [dismiss()] of a minimized sheet the
    closing report is dropped, so it tears nothing down. *)
Lemma dismiss_state_machine_counterexample :
  ~ In (Sheet SheetClose)
       (traceOf (handleDismiss sampleProps "id" false) initial) /\
  ~ In (Sheet SheetClose)
       (traceOf (handleDismiss sampleProps "id" true) initial) /\
  (let closing := stateOf (handleDismiss sampleProps "id" false) (minimizedAt 1) in
   adjustedIndex sampleProps 0 < 0 /\
   handleOnChange sampleProps "id" 0 closing = (tt, closing, [])).
Proof.
  split; [|split].
  - vm_compute. intros [H|[]]. discriminate H.
  - vm_compute. intros [].
  - cbv zeta. split; reflexivity.
Qed.

Lemma dismiss_state_machine_witness :
  isMinimized (presentedAt 1) = false /\
  stateOf (handleDismiss sampleProps "id" true) (presentedAt 1)
  = mkModal true true false true 1 (-1) [] /\
  traceOf (handleDismiss sampleProps "id" true) (presentedAt 1)
  = [Sheet SheetClose] /\
  traceOf (handleDismiss sampleProps "id" false) (presentedAt 1)
  = [WillUnmountSheet "bottom-sheet-modal-id"; Sheet SheetClose] /\
  traceOf (handleDismiss sampleProps "id" false) initial
  = [WillUnmountSheet "bottom-sheet-modal-id"] /\
  isMinimized (minimizedAt 1) = true /\
  traceOf (handleDismiss sampleProps "id" true) (minimizedAt 1)
  = [UnmountSheet "bottom-sheet-modal-id"; UnmountPortal "bottom-sheet-modal-id";
     OnDismiss] /\
  adjustedIndex sampleProps 0 < 0 /\
  traceOf (handleOnChange sampleProps "id" 0)
          (stateOf (handleDismiss sampleProps "id" false) (presentedAt 1))
  = [UnmountSheet "bottom-sheet-modal-id"; UnmountPortal "bottom-sheet-modal-id";
     OnDismiss] /\
  isForcedDismissed (minimizedAt 1) = false /\
  traceOf (handleOnChange sampleProps "id" 0)
          (stateOf (handleDismiss sampleProps "id" false) (minimizedAt 1))
  = [].
Proof.
  pose proof (dismiss_state_machine sampleProps "id" (presentedAt 1)) as Hp.
  pose proof (dismiss_state_machine sampleProps "id" initial) as Hi.
  pose proof (dismiss_state_machine sampleProps "id" (minimizedAt 1)) as Hm.
  cbv zeta in Hp, Hi, Hm.
  destruct Hp as (_ & Hforced & Hplain & Hlater).
  destruct Hi as (_ & _ & Hnull & _).
  destruct Hm as (Hnow & _ & _ & Hheld).
  destruct (Hforced eq_refl) as [Hs Ht].
  destruct (Hlater false eq_refl) as (_ & _ & _ & _ & Hclosing & _).
  destruct (Hheld false eq_refl) as (_ & _ & _ & _ & _ & Hdropped).
  split; [reflexivity|]. split; [exact Hs|]. split; [exact Ht|].
  split; [exact (proj2 Hplain)|]. split; [exact (proj2 Hnull)|].
  split; [reflexivity|]. split; [exact (proj1 (proj2 (Hnow eq_refl)))|].
  split; [reflexivity|].
  split; [exact (proj2 (Hclosing 0 (or_intror (or_introl eq_refl)) eq_refl))|].
  split; [reflexivity|].
  exact (proj2 (Hdropped 0 eq_refl eq_refl eq_refl)).
Defined.

(** C6, as stated, fails.  A component that was never presented is not
    minimized, and none of the four commands reaches the engine. *)
Lemma visual_commands_counterexample :
  isMinimized initial = false /\
  ~ In (Sheet SheetClose) (traceOf handleClose initial) /\
  ~ In (Sheet (SheetSnapTo 1 None)) (traceOf (handleCollapse sampleProps) initial) /\
  ~ In (Sheet SheetExpand) (traceOf (handleExpand sampleProps) initial) /\
  ~ In (Sheet (SheetSnapTo 2 None)) (traceOf (handleSnapTo sampleProps 1) initial).
Proof.
  split; [reflexivity|].
  repeat split; vm_compute; intros [].
Qed.

Lemma visual_commands_witness :
  isMinimized (presentedAt 1) = false /\
  handleClose (presentedAt 1)
  = (tt, mkModal true true false false 1 (-1) [], [Sheet SheetClose]) /\
  handleCollapse sampleProps (presentedAt 2)
  = (tt, mkModal true true false false 2 1 [], [Sheet (SheetSnapTo 1 None)]) /\
  handleExpand sampleProps (presentedAt 1)
  = (tt, mkModal true true false false 1 2 [], [Sheet SheetExpand]) /\
  handleSnapTo sampleProps 1 (presentedAt 1)
  = (tt, mkModal true true false false 1 2 [], [Sheet (SheetSnapTo 2 None)]) /\
  isMinimized initial = false /\
  handleSnapTo sampleProps 1 initial
  = (tt, mkModal false false false false (-1) 2 [], []).
Proof.
  split; [reflexivity|].
  pose proof (visual_commands sampleProps (presentedAt 1) 1 eq_refl) as H.
  pose proof (visual_commands sampleProps (presentedAt 2) 1 eq_refl) as H2.
  pose proof (visual_commands sampleProps initial 1 eq_refl) as H0.
  cbv zeta in H, H2, H0.
  destruct H as (Hclose & _ & Hexpand & _ & Hsnap).
  destruct H2 as (_ & Hcollapse & _).
  destruct H0 as (_ & _ & _ & _ & Hnull).
  split; [exact Hclose|]. split; [exact Hcollapse|].
  split; [exact Hexpand|]. split; [exact Hsnap|].
  split; [reflexivity|exact Hnull].
Defined.

(** C7, as stated, fails.  On a component that was never presented
    [minimize()] sets the flag and issues no [close()], and the
    [restore()] that follows issues no [snapTo]; and with a forced
    dismissal in flight, a closing report between [minimize()] and
    [restore()] calls [onDismiss]. *)
Lemma minimize_restore_counterexample :
  isMinimized initial = false /\
  ~ In (Sheet SheetClose) (traceOf handleMinimize initial) /\
  (let hidden := stateOf handleMinimize initial in
   isMinimized hidden = true /\
   ~ In (Sheet (SheetSnapTo (nextIndexRef hidden) (Some true)))
        (traceOf handleRestore hidden)) /\
  (let closing := stateOf (handleDismiss sampleProps "id" true) (presentedAt 1) in
   isMinimized closing = false /\
   count isOnDismiss
         (traceOf (handleMinimize ;; handleOnChange sampleProps "id" 0 ;;
                   handleRestore) closing) = 1%nat).
Proof.
  split; [reflexivity|]. split; [vm_compute; intros []|]. split.
  - cbv zeta. split; [reflexivity|]. vm_compute. intros [].
  - cbv zeta. split; reflexivity.
Qed.

Lemma minimize_restore_witness :
  isMinimized (presentedAt 1) = false /\
  isForcedDismissed (presentedAt 1) = false /\
  stateOf (handleMinimize ;; reports sampleProps "id" [0] ;; handleRestore)
          (presentedAt 1) = presentedAt 1 /\
  traceOf (handleMinimize ;; reports sampleProps "id" [0] ;; handleRestore)
          (presentedAt 1)
  = [Sheet SheetClose; Sheet (SheetSnapTo 1 (Some true))] /\
  isMinimized initial = false /\
  handleMinimize initial
  = (tt, mkModal false false true false (-1) (-1) [], []) /\
  isMinimized (mkModal true true false true 1 (-1) []) = false /\
  isForcedDismissed (mkModal true true false true 1 (-1) []) = true /\
  adjustedIndex sampleProps 0 < 0 /\
  traceOf (handleMinimize ;; handleOnChange sampleProps "id" 0 ;; handleRestore)
          (mkModal true true false true 1 (-1) [])
  = [Sheet SheetClose; UnmountSheet "bottom-sheet-modal-id";
     UnmountPortal "bottom-sheet-modal-id"; OnDismiss].
Proof.
  pose proof (minimize_restore sampleProps "id" (presentedAt 1)) as Hp.
  pose proof (minimize_restore sampleProps "id" initial) as Hi.
  pose proof (minimize_restore sampleProps "id"
                (mkModal true true false true 1 (-1) [])) as Hf.
  cbv zeta in Hp, Hi, Hf.
  destruct Hp as (_ & _ & _ & Hround & _).
  destruct Hi as (Hnull & _).
  destruct Hf as (_ & _ & _ & _ & Hforced & _).
  destruct (Hround eq_refl eq_refl [0]) as (Hs & Ht & _).
  split; [reflexivity|]. split; [reflexivity|].
  split; [exact Hs|]. split; [exact Ht|].
  split; [reflexivity|]. split; [exact (Hnull eq_refl)|].
  split; [reflexivity|]. split; [reflexivity|]. split; [reflexivity|].
  exact (proj2 (Hforced eq_refl eq_refl 0 eq_refl)).
Defined.

Lemma visual_commands_minimized_witness :
  isMinimized (minimizedAt 1) = true /\
  handleClose (minimizedAt 1) = (tt, minimizedAt 1, []) /\
  handleCollapse sampleProps (minimizedAt 1) = (tt, minimizedAt 1, []) /\
  handleExpand sampleProps (minimizedAt 1) = (tt, minimizedAt 1, []) /\
  handleSnapTo sampleProps 1 (minimizedAt 1) = (tt, minimizedAt 1, []).
Proof.
  split; [reflexivity|].
  exact (visual_commands_minimized sampleProps (minimizedAt 1) 1 eq_refl).
Defined.

(** C10, as stated, fails.  On a component that was never presented,
    which is not minimized, [snapTo(1)] sets [nextIndexRef] to [2] and
    hands nothing to the engine; nor does [snapTo(-1)] ask it for
    index [0]. *)
Lemma snapTo_unchecked_counterexample :
  isMinimized initial = false /\
  nextIndexRef (stateOf (handleSnapTo sampleProps 1) initial) = 2 /\
  ~ In (Sheet (SheetSnapTo 2 None)) (traceOf (handleSnapTo sampleProps 1) initial) /\
  dismissOnPanDown sampleProps = true /\
  ~ In (Sheet (SheetSnapTo 0 None))
       (traceOf (handleSnapTo sampleProps (-1)) initial).
Proof.
  split; [reflexivity|]. split; [reflexivity|].
  split; [vm_compute; intros []|]. split; [reflexivity|].
  vm_compute; intros [].
Qed.

Lemma snapTo_unchecked_witness :
  isMinimized (presentedAt 1) = false /\
  dismissOnPanDown sampleProps = true /\
  traceOf (handleSnapTo sampleProps (-1)) (presentedAt 1)
  = [Sheet (SheetSnapTo 0 None)] /\
  traceOf (handleSnapTo sampleProps 7) (presentedAt 1)
  = [Sheet (SheetSnapTo 8 None)] /\
  traceOf (handleSnapTo plainProps (-1)) (presentedAt 1)
  = [Sheet (SheetSnapTo (-1) None)] /\
  isMinimized initial = false /\
  stateOf (handleSnapTo sampleProps 7) initial
  = mkModal false false false false (-1) 8 [] /\
  traceOf (handleSnapTo sampleProps 7) initial = [].
Proof.
  split; [reflexivity|]. split; [reflexivity|].
  pose proof (snapTo_unchecked sampleProps (presentedAt 1) 7 eq_refl) as H.
  pose proof (snapTo_unchecked plainProps (presentedAt 1) (-1) eq_refl) as H2.
  pose proof (snapTo_unchecked sampleProps initial 7 eq_refl) as H0.
  cbv zeta in H, H2, H0.
  destruct H as (_ & Hbeyond & Hsynthetic).
  destruct (Hsynthetic eq_refl) as (Hzero & _).
  destruct H0 as (Hs0 & Ht0 & _).
  split; [exact Hzero|]. split; [exact Hbeyond|].
  split; [exact (proj1 (proj2 H2))|].
  split; [reflexivity|]. split; [exact Hs0|exact Ht0].
Defined.

(** * Keys across components *)

Lemma append_inj_r (a x y : string) :
  (a ++ x)%string = (a ++ y)%string -> x = y.
Proof.
  induction a as [|c a IH]; cbn; intros H; [exact H|].
  injection H as H. apply IH, H.
Qed.

(** X1.  A [name] that is given and not empty is the key, whatever id was
    generated; without one the key is the id behind the fixed prefix, so
    two components with different generated ids have different keys. *)
Theorem key_named_or_generated (p : Props) :
  (forall (n id : string),
      name p = Some n -> n <> EmptyString -> key p id = n) /\
  (forall id : string,
      name p = None \/ name p = Some EmptyString ->
      key p id = ("bottom-sheet-modal-" ++ id)%string) /\
  (forall id1 id2 : string,
      name p = None \/ name p = Some EmptyString ->
      key p id1 = key p id2 -> id1 = id2).
Proof.
  assert (Hgen : forall id : string,
             name p = None \/ name p = Some EmptyString ->
             key p id = ("bottom-sheet-modal-" ++ id)%string).
  { intros id [H|H]; unfold key; rewrite H; reflexivity. }
  split; [|split].
  - intros n id Hn Hne. unfold key. rewrite Hn.
    destruct n; [contradiction|reflexivity].
  - exact Hgen.
  - intros id1 id2 Hname Heq. rewrite !(Hgen _ Hname) in Heq.
    apply (append_inj_r _ _ _ Heq).
Qed.

(** * The further properties at concrete inputs *)

Lemma key_named_or_generated_witness :
  name plainProps = Some "sheet"%string /\
  key plainProps "a" = "sheet"%string /\
  name sampleProps = None /\
  key sampleProps "a" = "bottom-sheet-modal-a"%string /\
  key sampleProps "a" <> key sampleProps "b".
Proof.
  destruct (key_named_or_generated plainProps) as (Hnamed & _ & _).
  destruct (key_named_or_generated sampleProps) as (_ & Hgen & Hinj).
  split; [reflexivity|].
  split; [apply (Hnamed "sheet"%string "a"%string eq_refl); discriminate|].
  split; [reflexivity|].
  split; [apply (Hgen "a"%string (or_introl eq_refl))|].
  intros Heq.
  pose proof (Hinj "a"%string "b"%string (or_introl eq_refl) Heq) as Hab.
  discriminate Hab.
Defined.

Lemma onChange_never_negative_witness :
  In (OnChange 1)
     (traceOf (handleAll sampleProps "id" [EngineChange 1; EngineChange 2])
              (presentedAt 1)) /\
  0 <= 1.
Proof.
  assert (Hin : In (OnChange 1)
                   (traceOf (handleAll sampleProps "id"
                                       [EngineChange 1; EngineChange 2])
                            (presentedAt 1))).
  { vm_compute. right. left. reflexivity. }
  split; [exact Hin|].
  exact (onChange_never_negative sampleProps "id" _ (presentedAt 1) 1 Hin).
Defined.

Lemma currentIndexRef_settled_witness :
  (currentIndexRef initial = -1 \/
   0 <= adjustedIndex sampleProps (currentIndexRef initial)) /\
  (currentIndexRef
     (stateOf (handleAll sampleProps "id"
                         [Present; AnimationFrame; Render; EngineChange 1;
                          SnapTo 1; EngineChange 0])
              initial) = -1 \/
   0 <= adjustedIndex sampleProps
          (currentIndexRef
             (stateOf (handleAll sampleProps "id"
                                 [Present; AnimationFrame; Render;
                                  EngineChange 1; SnapTo 1; EngineChange 0])
                      initial))).
Proof.
  split; [left; reflexivity|].
  apply (currentIndexRef_settled sampleProps "id"). left; reflexivity.
Defined.

Lemma no_engine_command_before_render_witness :
  bottomSheetRef initial = false /\
  count isSheet
        (traceOf (handleAll sampleProps "id"
                            [Present; SnapTo 1; Dismiss true; Minimize;
                             Restore; AnimationFrame; Expand])
                 initial) = 0%nat.
Proof.
  split; [reflexivity|].
  apply (no_engine_command_before_render sampleProps "id"); reflexivity.
Defined.

Lemma intents_write_only_nextIndexRef_witness :
  isIntent (SnapTo 1) = true /\
  stateOf (handle sampleProps "id" (SnapTo 1)) (presentedAt 1)
  = mkModal true true false false 1 2 [] /\
  isIntent (Dismiss false) = true /\
  count isOnDismiss
        (traceOf (handle sampleProps "id" (Dismiss false)) (minimizedAt 1))
  = 0%nat.
Proof.
  split; [reflexivity|].
  split; [exact (proj1 (intents_write_only_nextIndexRef
                          sampleProps "id" (SnapTo 1) (presentedAt 1) eq_refl))|].
  split; [reflexivity|].
  exact (proj1 (proj2 (proj2 (intents_write_only_nextIndexRef
                                sampleProps "id" (Dismiss false)
                                (minimizedAt 1) eq_refl)))).
Defined.

Lemma snapTo_reported_index_witness :
  isMinimized (presentedAt 1) = false /\
  0 <= adjustedIndex sampleProps 2 /\
  handleSnapTo sampleProps (adjustedIndex sampleProps 2) (presentedAt 1)
  = (tt, mkModal true true false false 1 2 [], [Sheet (SheetSnapTo 2 None)]).
Proof.
  assert (Hopen : 0 <= adjustedIndex sampleProps 2)
    by (vm_compute; discriminate).
  split; [reflexivity|]. split; [exact Hopen|].
  exact (proj1 (snapTo_reported_index sampleProps "id" (presentedAt 1) 2
                                      eq_refl Hopen)).
Defined.

Lemma open_reports_forwarded_witness :
  isMinimized (presentedAt 1) && negb (isForcedDismissed (presentedAt 1)) = false /\
  Forall (fun i => 0 <= adjustedIndex sampleProps i) [1; 2; 1] /\
  stateOf (reports sampleProps "id" [1; 2; 1]) (presentedAt 2) = presentedAt 1 /\
  traceOf (reports sampleProps "id" [1; 2; 1]) (presentedAt 2)
  = [OnChange 0; OnChange 1; OnChange 0].
Proof.
  assert (Hopen : Forall (fun i => 0 <= adjustedIndex sampleProps i) [1; 2; 1])
    by (repeat constructor; vm_compute; discriminate).
  split; [reflexivity|]. split; [exact Hopen|].
  exact (open_reports_forwarded sampleProps "id" [1; 2; 1] (presentedAt 2)
                                eq_refl Hopen).
Defined.

Lemma presentation_cycle_witness :
  0 <= providedIndex sampleProps /\
  adjustedIndex sampleProps 0 < 0 /\
  handleAll sampleProps "id"
            [Present; AnimationFrame; Render; EngineChange 1; Dismiss false;
             EngineChange 0; Render] initial
  = (tt, initial,
     [MountSheet "bottom-sheet-modal-id"; OnChange 0;
      WillUnmountSheet "bottom-sheet-modal-id"; Sheet SheetClose;
      UnmountSheet "bottom-sheet-modal-id";
      UnmountPortal "bottom-sheet-modal-id"; OnDismiss]).
Proof.
  assert (Hidx : 0 <= providedIndex sampleProps) by (vm_compute; discriminate).
  split; [exact Hidx|]. split; [reflexivity|].
  exact (presentation_cycle sampleProps "id" false 0 Hidx eq_refl).
Defined.

Lemma host_unmount_after_teardown_witness :
  isMinimized (presentedAt 1) && negb (isForcedDismissed (presentedAt 1)) = false /\
  adjustedIndex sampleProps 0 < 0 /\
  handleAll sampleProps "id" [EngineChange 0; HostUnmount] (presentedAt 1)
  = (tt, mkModal false true false false (-1) (-1) [],
     [UnmountSheet "bottom-sheet-modal-id";
      UnmountPortal "bottom-sheet-modal-id"; OnDismiss]) /\
  isMinimized (minimizedAt 1) = true /\
  handleAll sampleProps "id" [Dismiss true; HostUnmount] (minimizedAt 1)
  = (tt, mkModal false true false false (-1) (-1) [],
     [UnmountSheet "bottom-sheet-modal-id";
      UnmountPortal "bottom-sheet-modal-id"; OnDismiss]) /\
  currentIndexRef initial = -1 /\
  handleOnUnmount sampleProps "id" initial = (tt, initial, []).
Proof.
  destruct (host_unmount_after_teardown sampleProps "id" (presentedAt 1) 0)
    as (Hreport & _ & _).
  destruct (host_unmount_after_teardown sampleProps "id" (minimizedAt 1) 0)
    as (_ & Hforced & _).
  destruct (host_unmount_after_teardown sampleProps "id" initial 0)
    as (_ & _ & Hnever).
  split; [reflexivity|]. split; [reflexivity|].
  split; [exact (Hreport eq_refl eq_refl)|].
  split; [reflexivity|]. split; [exact (Hforced eq_refl)|].
  split; [reflexivity|exact (Hnever eq_refl)].
Defined.

Lemma host_unmount_while_presented_witness :
  currentIndexRef (presentedAt 1) <> -1 /\
  adjustedIndex sampleProps 0 < 0 /\
  handleAll sampleProps "id" [HostUnmount; EngineChange 0] (presentedAt 1)
  = (tt, mkModal false true false false (-1) (-1) [],
     [Sheet SheetClose; UnmountSheet "bottom-sheet-modal-id";
      UnmountPortal "bottom-sheet-modal-id"; OnDismiss]) /\
  currentIndexRef (minimizedAt 1) <> -1 /\
  handleAll sampleProps "id" [HostUnmount] (minimizedAt 1)
  = (tt, mkModal false true false false (-1) (-1) [],
     [UnmountSheet "bottom-sheet-modal-id";
      UnmountPortal "bottom-sheet-modal-id"; OnDismiss]).
Proof.
  assert (Hp : currentIndexRef (presentedAt 1) <> -1) by discriminate.
  assert (Hq : currentIndexRef (minimizedAt 1) <> -1) by discriminate.
  split; [exact Hp|]. split; [reflexivity|].
  split; [exact (host_unmount_while_presented sampleProps "id" (presentedAt 1)
                                              0 Hp eq_refl)|].
  split; [exact Hq|].
  exact (host_unmount_while_presented sampleProps "id" (minimizedAt 1)
                                      0 Hq eq_refl).
Defined.

Lemma forced_dismissal_survives_minimize_witness :
  isMinimized (presentedAt 1) = false /\
  adjustedIndex sampleProps 0 < 0 /\
  handleAll sampleProps "id" [Dismiss true; Minimize; EngineChange 0]
            (presentedAt 1)
  = (tt, mkModal false true false false (-1) (-1) [],
     [Sheet SheetClose; Sheet SheetClose;
      UnmountSheet "bottom-sheet-modal-id";
      UnmountPortal "bottom-sheet-modal-id"; OnDismiss]) /\
  isForcedDismissed (presentedAt 1) = false /\
  handleAll sampleProps "id" [Dismiss false; Minimize; EngineChange 0]
            (presentedAt 1)
  = (tt, mkModal true true true false 1 (-1) [],
     [WillUnmountSheet "bottom-sheet-modal-id"; Sheet SheetClose;
      Sheet SheetClose]) /\
  isMinimized (mkModal true true false true 1 (-1) []) = false /\
  isForcedDismissed (mkModal true true false true 1 (-1) []) = true /\
  handleAll sampleProps "id" [Dismiss false; Minimize; EngineChange 0]
            (mkModal true true false true 1 (-1) [])
  = (tt, mkModal false true false false (-1) (-1) [],
     [WillUnmountSheet "bottom-sheet-modal-id"; Sheet SheetClose;
      Sheet SheetClose; UnmountSheet "bottom-sheet-modal-id";
      UnmountPortal "bottom-sheet-modal-id"; OnDismiss]).
Proof.
  pose proof (forced_dismissal_survives_minimize sampleProps "id"
                (presentedAt 1) 0 eq_refl eq_refl) as H.
  pose proof (forced_dismissal_survives_minimize sampleProps "id"
                (mkModal true true false true 1 (-1) []) 0 eq_refl eq_refl)
    as Hf.
  cbv zeta in H, Hf. destruct H as (Hforced & Hplain & _).
  destruct Hf as (_ & _ & Hflight).
  split; [reflexivity|]. split; [reflexivity|]. split; [exact Hforced|].
  split; [reflexivity|]. split; [exact (Hplain eq_refl)|].
  split; [reflexivity|]. split; [reflexivity|exact (Hflight eq_refl)].
Defined.

Lemma dismiss_while_minimized_deferred_witness :
  isMinimized (minimizedAt 1) = true /\
  isForcedDismissed (minimizedAt 1) = false /\
  bottomSheetRef (minimizedAt 1) = true /\
  adjustedIndex sampleProps 0 < 0 /\
  handleAll sampleProps "id"
            [Dismiss false; EngineChange 0; EngineChange 1; Restore]
            (minimizedAt 1)
  = (tt, mkModal true true false false 1 (-1) [],
     [WillUnmountSheet "bottom-sheet-modal-id"; Sheet SheetClose;
      Sheet (SheetSnapTo (-1) (Some true))]).
Proof.
  split; [reflexivity|]. split; [reflexivity|]. split; [reflexivity|].
  split; [reflexivity|].
  exact (proj1 (proj2 (dismiss_while_minimized_deferred
                         sampleProps "id" (minimizedAt 1) [0; 1] 0
                         eq_refl eq_refl eq_refl eq_refl))).
Defined.

Lemma pending_present_overrides_intents_witness :
  forallb isIntent [SnapTo 1; Dismiss false; Close] = true /\
  stateOf (handleAll sampleProps "id"
                     [Present; SnapTo 1; Dismiss false; Close; AnimationFrame])
          initial
  = mkModal true false false false (-1) 1 [].
Proof.
  split; [reflexivity|].
  exact (proj1 (pending_present_overrides_intents
                  sampleProps "id" [SnapTo 1; Dismiss false; Close] eq_refl)).
Defined.
